(** * keras_retinanet.callbacks.eval: the [Evaluate] callback

    A shallow embedding of [src/keras_retinanet/callbacks/eval.py] and the
    properties of its epoch-end aggregation.

    - Python numbers are modelled as they are: [int] is [Z], [float] is
      IEEE binary64 (Rocq's primitive [float], round to nearest even), and
      the arithmetic operators follow Python's coercion rules and raise
      [ZeroDivisionError] and [OverflowError] where Python does.
    - The result of [evaluate], the label names of the generator and the
      TensorBoard writer are collaborators outside this file of the
      repository; they are variables of the section that models
      [on_epoch_end].
    - Dictionaries live in a heap of objects, so that rebinding the local
      name [logs] and mutating the caller's dictionary can be told apart. *)

From stdpp Require Import gmap strings list fin_maps pretty.
From Stdlib Require Import ZArith NArith Lia Floats.

Set Warnings "-inexact-float".

(** ** Python numbers *)

Module Py.

(** The exceptions of the arithmetic, and one for whatever a
    collaborator (the evaluator, TensorFlow, matplotlib) raises. *)
Inductive exn : Type :=
| ZeroDivisionError
| OverflowError
| ExternalError.

Inductive result (A : Type) : Type :=
| Ok (a : A)
| Raise (e : exn).
Arguments Ok {A} a.
Arguments Raise {A} e.

Definition bind {A B : Type} (r : result A) (k : A -> result B) : result B :=
  match r with
  | Ok a => k a
  | Raise e => Raise e
  end.

#[global] Instance result_ret : MRet result := @Ok.
#[global] Instance result_bind : MBind result := fun A B k r => bind r k.

(** [int] and [float]; [bool] is the [int] 0 or 1 in arithmetic. *)
Inductive num : Type :=
| Int (z : Z)
| Float (f : float).

Definition of_bool (b : bool) : num := Int (if b then 1 else 0)%Z.

(** The integer [z] as the mantissa-exponent pair [z * 2^0]. *)
Definition sf_of_int (z : Z) : spec_float :=
  match z with
  | Z0 => S754_zero false
  | Zpos p => S754_finite false p 0
  | Zneg p => S754_finite true p 0
  end.

(** [float(z)]: the nearest double, ties to even; [OverflowError] when
    that is beyond the largest finite double. *)
Definition float_of_int (z : Z) : result float :=
  match binary_normalize prec emax z 0 false with
  | S754_infinity _ => Raise OverflowError
  | sf => Ok (SF2Prim sf)
  end.

Definition to_float (x : num) : result float :=
  match x with
  | Int z => float_of_int z
  | Float f => Ok f
  end.

(** [x == 0] *)
Definition is_zero (x : num) : bool :=
  match x with
  | Int z => (z =? 0)%Z
  | Float f => (f =? 0)%float
  end.

(** [x > 0] where [x] is an [int] *)
Definition int_gt0 (z : Z) : bool := (0 <? z)%Z.

(** [x + y] *)
Definition add (x y : num) : result num :=
  match x, y with
  | Int a, Int b => Ok (Int (a + b))
  | _, _ =>
      a ← to_float x;
      b ← to_float y;
      Ok (Float (a + b))
  end.

(** [x * y] *)
Definition mul (x y : num) : result num :=
  match x, y with
  | Int a, Int b => Ok (Int (a * b))
  | _, _ =>
      a ← to_float x;
      b ← to_float y;
      Ok (Float (a * b))
  end.

(** [a / b] on two [int]s: the correctly rounded quotient. *)
Definition int_true_divide (a b : Z) : result num :=
  if (b =? 0)%Z then Raise ZeroDivisionError
  else
    match SFdiv prec emax (sf_of_int a) (sf_of_int b) with
    | S754_infinity _ => Raise OverflowError
    | sf => Ok (Float (SF2Prim sf))
    end.

(** [x / y] (true division): both operands are converted first, then a
    zero divisor raises. *)
Definition truediv (x y : num) : result num :=
  match x, y with
  | Int a, Int b => int_true_divide a b
  | _, _ =>
      a ← to_float x;
      b ← to_float y;
      if is_zero y then Raise ZeroDivisionError
      else Ok (Float (a / b))
  end.

(** ['{:.0f}'.format(x)] and ['{:.4f}'.format(x)]: the presentation type
    [f] formats a [float], so an [int] is converted first, which raises
    for one beyond the largest double; the text itself is not modelled. *)
Definition format_f (x : num) : result unit :=
  _ ← to_float x; Ok tt.

(** [sum(l)]: the left fold of [+] from the [int] 0, each addition
    rounded on its own (CPython before 3.12, which compensates the
    rounding errors of a sum of floats). *)
Fixpoint sum_from (acc : num) (l : list num) : result num :=
  match l with
  | [] => Ok acc
  | x :: l' => acc' ← add acc x; sum_from acc' l'
  end.

Definition sum (l : list num) : result num := sum_from (Int 0) l.

(** [[f(a, b) for a, b in zip(xs, ys)]] for an [f] that may raise. *)
Fixpoint zip_with_r {A B C : Type} (f : A -> B -> result C)
    (xs : list A) (ys : list B) : result (list C) :=
  match xs, ys with
  | x :: xs', y :: ys' =>
      c ← f x y;
      cs ← zip_with_r f xs' ys';
      Ok (c :: cs)
  | _, _ => Ok []
  end.

End Py.

Import Py.

(** ** The per-class results and the aggregation (lines 77-88) *)

(** Modelled from the spec: [evaluate] is defined in [..utils.eval], which
    is not among the sources; its per-class result is
    "(average_precision: float, num_annotations: int), keyed by class
    label".  One item of [average_precisions.items()] is the label with
    that pair; [num_annotations] counts annotations, so it is a natural
    number, and the items come in the iteration order of the dictionary. *)
Definition class_result : Type := Z * (float * N).

Definition label_of (r : class_result) : Z := r.1.
Definition average_precision_of (r : class_result) : float := r.2.1.
Definition num_annotations_of (r : class_result) : N := r.2.2.

(** The loop of lines 79-84 without its printing: both lists grow by
    [append], in the iteration order of the dictionary. *)
Definition per_class_lists (average_precisions : list class_result)
    : list N * list float :=
  fold_left
    (fun '(total_instances, precisions) '(_, (average_precision, num_annotations)) =>
       (total_instances ++ [num_annotations], precisions ++ [average_precision]))
    average_precisions ([], []).

Definition int_of_count (n : N) : num := Int (Z.of_N n).

(** [sum(x > 0 for x in total_instances)] (line 88). *)
Definition unweighted_denominator (total_instances : list N) : result num :=
  sum ((fun x => of_bool (int_gt0 (Z.of_N x))) <$> total_instances).

(** Lines 85-88: the value assigned to [self.mean_ap]. *)
Definition mean_ap_of_lists (weighted_average : bool)
    (total_instances : list N) (precisions : list float) : result num :=
  if weighted_average then
    products ← zip_with_r (fun a b => mul (int_of_count a) (Float b))
                   total_instances precisions;
    numerator ← sum products;
    denominator ← sum (int_of_count <$> total_instances);
    truediv numerator denominator
  else
    numerator ← sum (Float <$> precisions);
    denominator ← unweighted_denominator total_instances;
    truediv numerator denominator.

Definition mean_ap (weighted_average : bool)
    (average_precisions : list class_result) : result num :=
  let '(total_instances, precisions) := per_class_lists average_precisions in
  mean_ap_of_lists weighted_average total_instances precisions.

(** ** [decreasing_max_precision] (line 74) *)

(** [np.maximum] on two doubles, as NumPy documents it: the greater of
    the two, and the NaN when one of them is a NaN.  It is the first
    operand when that is a NaN or not below the second, else the second. *)
Definition np_maximum (x1 x2 : float) : float :=
  if (x2 <=? x1)%float || is_nan x1 then x1 else x2.

(** [np.maximum.accumulate]: [r[0] = a[0]], [r[i] = maximum(r[i-1], a[i])]. *)
Fixpoint accumulate_from (acc : float) (a : list float) : list float :=
  match a with
  | [] => []
  | x :: a' => let acc' := np_maximum acc x in acc' :: accumulate_from acc' a'
  end.

Definition np_maximum_accumulate (a : list float) : list float :=
  match a with
  | [] => []
  | x :: a' => x :: accumulate_from x a'
  end.

Definition decreasing_max_precision (precision : list float) : list float :=
  reverse (np_maximum_accumulate (reverse precision)).

(** ** The callback object, the heap and the effects of [on_epoch_end] *)

(** The arguments of [__init__] that [on_epoch_end] reads; [tensorboard]
    is [None] or the [log_dir] of the TensorBoard callback. *)
Record Evaluate : Type := {
  iou_threshold : float;
  score_threshold : float;
  max_detections : Z;
  save_path : option string;
  tensorboard : option string;
  weighted_average : bool;
  verbose : Z
}.

(** Modelled from the spec: what [evaluate] returns (line 65), "(per-class
    AP map, elapsed time, recall array, precision array)". *)
Record evaluation : Type := {
  average_precisions : list class_result;
  time : float;
  recall : list float;
  precision : list float
}.

(** A line printed to standard output, before formatting. *)
Inductive line : Type :=
| ClassLine (num_annotations : N) (name : string) (average_precision : float)
| MapLine (mean_ap : num).

(** A request to TensorFlow or matplotlib from the TensorBoard branch. *)
Inductive tb_request : Type :=
| TbScalar (log_dir tag : string) (value : num) (step : Z)
| TbFlush (log_dir : string)
| TbCurve (title : string) (xs ys : list float)
| TbImage (log_dir title : string) (step : Z).

(** A log dictionary maps metric names to numbers; objects are named by
    their location in the heap. *)
Abbreviation dict := (gmap string num).
Abbreviation loc := nat.

(** The heap of dictionaries, what was printed, and the attributes that
    [on_epoch_end] assigns on [self] ([None] while unassigned). *)
Record state : Type := {
  heap : gmap loc dict;
  stdout : list line;
  self_recall : option (list float);
  self_precision : option (list float);
  self_mean_ap : option num
}.

Definition set_heap (h : gmap loc dict) (s : state) : state :=
  {| heap := h; stdout := stdout s; self_recall := self_recall s;
     self_precision := self_precision s; self_mean_ap := self_mean_ap s |}.

Definition set_stdout (out : list line) (s : state) : state :=
  {| heap := heap s; stdout := out; self_recall := self_recall s;
     self_precision := self_precision s; self_mean_ap := self_mean_ap s |}.

(** Computations that read and write the state and may raise; the state
    at the point of the exception is kept. *)
Definition M (A : Type) : Type := state -> result A * state.

#[global] Instance M_ret : MRet M := fun A a s => (Ok a, s).
#[global] Instance M_bind : MBind M := fun A B k c s =>
  match c s with
  | (Ok a, s') => k a s'
  | (Raise e, s') => (Raise e, s')
  end.

Definition lift {A : Type} (r : result A) : M A := fun s => (r, s).
Definition modify (f : state -> state) : M unit := fun s => (Ok tt, f s).
Definition gets {A : Type} (f : state -> A) : M A := fun s => (Ok (f s), s).

(** The dictionary at [l]; a location outside the heap reads as empty. *)
Definition deref (h : gmap loc dict) (l : loc) : dict := default ∅ (h !! l).

(** [{}]: a new dictionary at a location the heap does not have. *)
Definition new_dict : M loc := fun s =>
  let l := fresh (dom (heap s)) in
  (Ok l, set_heap (<[l := ∅]> (heap s)) s).

(** [logs or {}] (line 62): [None] and the empty dictionary are falsy. *)
Definition logs_or_new (logs : option loc) : M loc :=
  match logs with
  | None => new_dict
  | Some l =>
      d ← gets (fun s => deref (heap s) l);
      if decide (d = ∅) then new_dict else mret l
  end.

(** [d[key] = value] on the dictionary at [l]. *)
Definition setitem (l : loc) (key : string) (value : num) : M unit :=
  modify (fun s => set_heap (<[l := <[key := value]> (deref (heap s) l)]> (heap s)) s).

Definition print (ls : list line) : M unit :=
  modify (fun s =>
    {| heap := heap s; stdout := stdout s ++ ls; self_recall := self_recall s;
       self_precision := self_precision s; self_mean_ap := self_mean_ap s |}).

Definition set_recall_precision (r p : list float) : M unit :=
  modify (fun s =>
    {| heap := heap s; stdout := stdout s; self_recall := Some r;
       self_precision := Some p; self_mean_ap := self_mean_ap s |}).

Definition set_mean_ap (m : num) : M unit :=
  modify (fun s =>
    {| heap := heap s; stdout := stdout s; self_recall := self_recall s;
       self_precision := self_precision s; self_mean_ap := Some m |}).

Section Callback.

(** [evaluate(self.generator, self.model, ...)] with the generator and
    the model fixed; it may raise. *)
Variable evaluate : float -> float -> Z -> option string -> result evaluation.

(** [self.generator.label_to_name] *)
Variable label_to_name : Z -> string.

(** The TensorFlow and matplotlib calls of lines 91-120, in order; they
    may raise. *)
Variable tensorboard_write : list tb_request -> result unit.

(** The lines of the loop at 79-82. *)
Definition class_lines (aps : list class_result) : list line :=
  (fun r => ClassLine (num_annotations_of r) (label_to_name (label_of r))
              (average_precision_of r)) <$> aps.

(** Lines 91-120. *)
Definition tensorboard_requests (self : Evaluate) (log_dir : string) (epoch : Z)
    (aps : list class_result) (m : num) (recall dmp : list float)
    : list tb_request :=
  let title := "Precision Recall Curve Epoch " +:+ pretty epoch in
  [TbScalar log_dir "mAP" m epoch]
  ++ (if (verbose self =? 1)%Z
      then (fun r => TbScalar log_dir ("AP_" +:+ label_to_name (label_of r))
                       (Float (average_precision_of r)) epoch) <$> aps
      else [])
  ++ [TbFlush log_dir;
      TbCurve title recall dmp;
      TbImage (log_dir +:+ "/pr_curve") title epoch;
      TbFlush (log_dir +:+ "/pr_curve")].

(** The loop of lines 79-84: with [verbose == 1] each class first has
    its count formatted, which may raise, and its line printed; then both
    lists grow by [append]. *)
Fixpoint class_loop (self : Evaluate) (items : list class_result)
    (total_instances : list N) (precisions : list float)
    : M (list N * list float) :=
  match items with
  | [] => mret (total_instances, precisions)
  | (label, (average_precision, num_annotations)) :: items' =>
      (if (verbose self =? 1)%Z
       then lift (format_f (int_of_count num_annotations));;
            print [ClassLine num_annotations (label_to_name label)
                     average_precision]
       else mret tt);;
      class_loop self items' (total_instances ++ [num_annotations])
        (precisions ++ [average_precision])
  end.

(** Lines 64-127, with the local name [logs] bound to the dictionary at
    [logs]. *)
Definition evaluate_and_log (self : Evaluate) (epoch : Z) (logs : loc)
    : M unit :=
  ev ← lift (evaluate (iou_threshold self) (score_threshold self)
               (max_detections self) (save_path self));
  set_recall_precision (recall ev) (precision ev);;
  let dmp := decreasing_max_precision (precision ev) in
  lists ← class_loop self (average_precisions ev) [] [];
  m ← lift (mean_ap_of_lists (weighted_average self) lists.1 lists.2);
  set_mean_ap m;;
  match tensorboard self with
  | Some log_dir =>
      lift (tensorboard_write
              (tensorboard_requests self log_dir epoch (average_precisions ev)
                 m (recall ev) dmp))
  | None => mret tt
  end;;
  setitem logs "mAP" m;;
  if (verbose self =? 1)%Z
  then lift (format_f m);; print [MapLine m]
  else mret tt.

Definition on_epoch_end (self : Evaluate) (epoch : Z) (logs : option loc)
    : M unit :=
  logs ← logs_or_new logs;
  evaluate_and_log self epoch logs.

End Callback.

(** ** What the specification says, in the same arithmetic *)

(** The count of a class can be formatted on line 81: it is not beyond
    the largest double. *)
Definition count_formats (r : class_result) : Prop :=
  format_f (int_of_count (num_annotations_of r)) = Ok tt.

(** A class with at least one annotation. *)
Definition annotated (r : class_result) : bool := (0 <? num_annotations_of r)%N.

(** The number of annotations over all classes. *)
Definition total_annotations (aps : list class_result) : N :=
  foldr N.add 0%N (num_annotations_of <$> aps).

(** The arithmetic mean of a list of doubles: [sum(l) / len(l)]. *)
Definition arithmetic_mean (l : list float) : result num :=
  s ← sum (Float <$> l);
  truediv s (Int (Z.of_nat (length l))).

(** The mean of [average_precision] over the annotated classes only. *)
Definition mean_over_annotated (aps : list class_result) : result num :=
  arithmetic_mean (average_precision_of <$> filter (fun r => annotated r = true) aps).

(** The sum of [average_precision] over all classes, divided by the number
    of annotated classes. *)
Definition sum_over_all_by_annotated (aps : list class_result) : result num :=
  s ← sum (Float <$> (average_precision_of <$> aps));
  truediv s (Int (Z.of_nat (length (filter (fun r => annotated r = true) aps)))).

(** [sum(AP_i * count_i) / sum(count_i)] over all classes. *)
Definition weighted_mean (aps : list class_result) : result num :=
  products ← mapM (fun r => mul (Float (average_precision_of r))
                             (int_of_count (num_annotations_of r))) aps;
  s ← sum products;
  truediv s (Int (Z.of_N (total_annotations aps))).

(** ** Concrete per-class results

    The labels [A] and [B] of the examples are the class labels 0 and 1. *)

(** [{A: (AP=0.8, n=10), B: (AP=0.4, n=0)}] *)
Definition results_A08_B04 : list class_result :=
  [(0%Z, (0.8%float, 10%N)); (1%Z, (0.4%float, 0%N))].

(** [{A: (AP=0.5, n=5), B: (AP=0.3, n=5)}] *)
Definition results_A05_B03 : list class_result :=
  [(0%Z, (0.5%float, 5%N)); (1%Z, (0.3%float, 5%N))].

(** [{A: (AP=1.0, n=1), B: (AP=1.0, n=0)}] *)
Definition results_A1_B1 : list class_result :=
  [(0%Z, (1%float, 1%N)); (1%Z, (1%float, 0%N))].

(** [{A: (AP=0.8, n=10), B: (AP=0.0, n=0)}]: what an evaluator reports
    for a class without annotations when it gives it the precision 0. *)
Definition results_A08_B0 : list class_result :=
  [(0%Z, (0.8%float, 10%N)); (1%Z, (0%float, 0%N))].

(** [{A: (AP=0.4, n=0), B: (AP=0.7, n=0)}] *)
Definition results_no_annotations : list class_result :=
  [(0%Z, (0.4%float, 0%N)); (1%Z, (0.7%float, 0%N))].

(** ** A concrete callback

    [Evaluate(generator)] with the defaults of [__init__], an evaluator
    that reports [{A: (0.5, 5), B: (0.3, 5)}], and a caller whose heap
    holds one empty dictionary at location 0. *)

Definition default_callback : Evaluate :=
  {| iou_threshold := 0.5; score_threshold := 0.05; max_detections := 100;
     save_path := None; tensorboard := None; weighted_average := false;
     verbose := 1 |}.

Definition precision_example : list float := [0.5; 1; 0.75; 0.6]%float.

Definition evaluate_example (_ _ : float) (_ : Z) (_ : option string)
    : result evaluation :=
  Ok {| average_precisions := results_A05_B03; time := 1.5;
        recall := [0.25; 0.5; 0.75; 1]%float; precision := precision_example |}.

Definition label_to_name_example (label : Z) : string :=
  if (label =? 0)%Z then "A" else "B".

Definition tensorboard_write_example (_ : list tb_request) : result unit :=
  Ok tt.

Definition state_with_empty_logs : state :=
  {| heap := {[ 0%nat := ∅ ]}; stdout := []; self_recall := None;
     self_precision := None; self_mean_ap := None |}.

(** The same caller with [{"loss": 0.25}] at location 0. *)
Definition state_with_loss_logs : state :=
  {| heap := {[ 0%nat := {[ "loss" := Float 0.25 ]} ]}; stdout := [];
     self_recall := None; self_precision := None; self_mean_ap := None |}.

(** [callback.on_epoch_end(3, logs)] on those two callers. *)
Definition run_with_empty_logs : result unit * state :=
  on_epoch_end evaluate_example label_to_name_example tensorboard_write_example
    default_callback 3 (Some 0%nat) state_with_empty_logs.


(** An evaluator that finds no annotation at all. *)
Definition evaluate_no_annotations (_ _ : float) (_ : Z) (_ : option string)
    : result evaluation :=
  Ok {| average_precisions := results_no_annotations; time := 1.5;
        recall := []; precision := [] |}.

(** [Evaluate(generator, weighted_average=True)] *)
Definition weighted_callback : Evaluate :=
  {| iou_threshold := 0.5; score_threshold := 0.05; max_detections := 100;
     save_path := None; tensorboard := None; weighted_average := true;
     verbose := 1 |}.

(** [Evaluate.__init__] (lines 27-59): every keyword argument that is not
    given ([None] here) takes its default; [save_path] and [tensorboard]
    default to [None] themselves. *)
Definition __init__ (iou_threshold score_threshold : option float)
    (max_detections : option Z) (save_path tensorboard : option string)
    (weighted_average : option bool) (verbose : option Z) : Evaluate :=
  {| iou_threshold := default 0.5%float iou_threshold;
     score_threshold := default 0.05%float score_threshold;
     max_detections := default 100%Z max_detections;
     save_path := save_path;
     tensorboard := tensorboard;
     weighted_average := default false weighted_average;
     verbose := default 1%Z verbose |}.

(** ** More concrete collaborators and callers *)

(** An evaluator that raises, and a TensorBoard writer that raises. *)
Definition evaluate_raises_example (_ _ : float) (_ : Z) (_ : option string)
    : result evaluation :=
  Raise ExternalError.

Definition tensorboard_write_raises_example (_ : list tb_request) : result unit :=
  Raise ExternalError.

(** [Evaluate(generator, tensorboard=tb)] with [tb.log_dir == "logs"], and
    [Evaluate(generator, verbose=0)]. *)
Definition tensorboard_callback : Evaluate :=
  __init__ None None None None (Some "logs") None None.

Definition quiet_callback : Evaluate :=
  __init__ None None None None None None (Some 0%Z).

(** What [evaluate_example] and [evaluate_no_annotations] return. *)
Definition evaluation_A05_B03 : evaluation :=
  {| average_precisions := results_A05_B03; time := 1.5;
     recall := [0.25; 0.5; 0.75; 1]%float; precision := precision_example |}.

Definition evaluation_no_annotations : evaluation :=
  {| average_precisions := results_no_annotations; time := 1.5;
     recall := []; precision := [] |}.



(** A precision array and a per-class result with a NaN. *)
Definition precision_with_nan : list float := [0.5; nan; 0.75]%float.

Definition results_with_nan : list class_result :=
  [(0%Z, (0.8%float, 10%N)); (1%Z, (nan, 0%N))].

(** An evaluator that reports, for class B, an annotation count beyond
    the largest double: [{A: (0.5, 5), B: (0.3, 2**1024)}]. *)
Definition results_huge_count : list class_result :=
  [(0%Z, (0.5%float, 5%N)); (1%Z, (0.3%float, (2 ^ 1024)%N))].

Definition evaluation_huge_count : evaluation :=
  {| average_precisions := results_huge_count; time := 1.5;
     recall := [0.5; 1]%float; precision := [1; 0.5]%float |}.

Definition evaluate_huge_count (_ _ : float) (_ : Z) (_ : option string)
    : result evaluation :=
  Ok evaluation_huge_count.

(** Two results that hold different doubles are different. *)
Ltac float_discriminate H :=
  match type of H with
  | Ok (Float ?a) = Ok (Float ?b) =>
      apply (f_equal (fun r => match r with
                               | Ok (Float x) => PrimFloat.eqb x b
                               | _ => false
                               end)) in H;
      vm_compute in H; discriminate H
  end.

(** ** Facts about binary64 arithmetic

    Proved from the specification of the primitive operations
    ([add_spec], [mul_spec], [leb_spec], ...) over [spec_float]. *)

Module FloatFacts.

Lemma shr_1_m (r : shr_record) :
  (0 <= shr_m r)%Z -> shr_m (shr_1 r) = Z.div2 (shr_m r).
Proof.
  destruct r as [m b c]; simpl; intros Hm.
  destruct m as [|[p|p|]|p]; simpl; try reflexivity; lia.
Qed.

Lemma iter_shr_1_m (p : positive) : forall r,
  (0 <= shr_m r)%Z ->
  shr_m (iter_pos shr_1 p r) = Z.shiftr (shr_m r) (Zpos p).
Proof.
  induction p as [p IH|p IH|]; intros r Hr; simpl iter_pos.
  - assert (H1 : (0 <= shr_m (shr_1 r))%Z).
    { rewrite shr_1_m by done. rewrite Z.div2_spec. apply Z.shiftr_nonneg. done. }
    assert (H2 : (0 <= shr_m (iter_pos shr_1 p (shr_1 r)))%Z).
    { rewrite IH by done. apply Z.shiftr_nonneg. done. }
    rewrite IH, IH, shr_1_m by done.
    rewrite Z.div2_spec, !Z.shiftr_shiftr by lia. f_equal. lia.
  - assert (H2 : (0 <= shr_m (iter_pos shr_1 p r))%Z).
    { rewrite IH by done. apply Z.shiftr_nonneg. done. }
    rewrite IH, IH by done.
    rewrite !Z.shiftr_shiftr by lia. f_equal. lia.
  - rewrite shr_1_m by done. apply Z.div2_spec.
Qed.

Lemma digits2_pos_lower (m : positive) :
  (2 ^ (Zpos (digits2_pos m) - 1) <= Zpos m)%Z.
Proof.
  induction m as [m IH|m IH|]; simpl digits2_pos.
  - rewrite Pos2Z.inj_succ.
    replace (Z.succ (Zpos (digits2_pos m)) - 1)%Z with (Z.succ (Zpos (digits2_pos m) - 1))%Z by lia.
    rewrite Z.pow_succ_r by lia. lia.
  - rewrite Pos2Z.inj_succ.
    replace (Z.succ (Zpos (digits2_pos m)) - 1)%Z with (Z.succ (Zpos (digits2_pos m) - 1))%Z by lia.
    rewrite Z.pow_succ_r by lia. lia.
  - simpl. lia.
Qed.

(** Shifting a positive mantissa to its canonical exponent keeps it
    positive when the exponent is not below [emin]. *)
Lemma shr_fexp_pos (m e : Z) (l : location) :
  (0 < m)%Z -> (emin <= e)%Z ->
  (0 < shr_m (shr_fexp prec emax m e l).1)%Z /\ (emin <= (shr_fexp prec emax m e l).2)%Z.
Proof.
  intros Hm He. unfold shr_fexp, shr.
  assert (Hrec : shr_m (shr_record_of_loc m l) = m).
  { destruct l as [|[]]; reflexivity. }
  destruct m as [|m|m]; try lia. simpl Zdigits2.
  destruct (fexp prec emax (Z.pos (digits2_pos m) + e) - e)%Z as [|p|p] eqn:Hn; simpl.
  - rewrite Hrec. lia.
  - rewrite iter_shr_1_m by (rewrite Hrec; lia). rewrite Hrec.
    unfold fexp, SpecFloat.emin, prec, emax in *.
    split; [|lia].
    rewrite Z.shiftr_div_pow2 by lia.
    pose proof (digits2_pos_lower m) as Hd.
    assert (Hp : (Z.pos p <= Z.pos (digits2_pos m) - 1)%Z) by lia.
    assert (Hpow : (2 ^ Z.pos p <= 2 ^ (Z.pos (digits2_pos m) - 1))%Z).
    { apply Z.pow_le_mono_r; lia. }
    apply Z.div_str_pos. lia.
  - rewrite Hrec. lia.
Qed.

Lemma binary_round_aux_not_zero (s s' : bool) (m : positive) (e : Z) (l : location) :
  (emin <= e)%Z ->
  binary_round_aux prec emax s (Zpos m) e l <> S754_zero s'.
Proof.
  intros He. unfold binary_round_aux.
  pose proof (shr_fexp_pos (Zpos m) e l ltac:(lia) He) as [H1 H1e].
  destruct (shr_fexp prec emax (Z.pos m) e l) as [mrs' e'] eqn:E1. simpl in H1, H1e.
  set (m2 := round_nearest_even (shr_m mrs') (loc_of_shr_record mrs')).
  assert (H2 : (0 < m2)%Z).
  { unfold m2, round_nearest_even.
    destruct (loc_of_shr_record mrs') as [|[]]; try lia.
    destruct (Z.even (shr_m mrs')); lia. }
  pose proof (shr_fexp_pos m2 e' loc_Exact H2 H1e) as [H3 _].
  destruct (shr_fexp prec emax m2 e' loc_Exact) as [mrs'' e''] eqn:E2. simpl in H3.
  destruct (shr_m mrs'') as [|q|q]; try lia.
  destruct (e'' <=? emax - prec)%Z; discriminate.
Qed.

Lemma digits2_pos_iter_xO (m k : positive) :
  Zpos (digits2_pos (Pos.iter xO m k)) = (Zpos (digits2_pos m) + Zpos k)%Z.
Proof.
  induction k as [|k IH] using Pos.peano_ind.
  - simpl. lia.
  - rewrite Pos.iter_succ. simpl digits2_pos. lia.
Qed.

Lemma digits2_pos_small (m : positive) :
  (Zpos m < 2 ^ 53)%Z -> (Zpos (digits2_pos m) <= 53)%Z.
Proof.
  intros Hm. pose proof (digits2_pos_lower m) as Hd.
  destruct (Z.le_gt_cases (Zpos (digits2_pos m)) 53) as [|Hgt]; [done|].
  assert (2 ^ 53 <= 2 ^ (Zpos (digits2_pos m) - 1))%Z
    by (apply Z.pow_le_mono_r; lia).
  lia.
Qed.

(** An integer below [2^53] is a double. *)
Lemma binary_normalize_small (m : positive) :
  (Zpos m < 2 ^ 53)%Z ->
  exists mz ez, binary_normalize prec emax (Zpos m) 0 false = S754_finite false mz ez.
Proof.
  intros Hm%digits2_pos_small.
  unfold binary_normalize, binary_round.
  assert (Hal : exists mz ez,
            shl_align m 0 (fexp prec emax (Z.pos (digits2_pos m) + 0)) = (mz, ez)
            /\ (Zpos (digits2_pos mz) = 53)%Z /\ (-52 <= ez <= 0)%Z).
  { unfold shl_align, fexp, SpecFloat.emin, prec, emax.
    pose proof (Pos2Z.is_pos (digits2_pos m)).
    destruct (Z.max (Z.pos (digits2_pos m) + 0 - 53) (3 - 1024 - 53) - 0)%Z
      as [|p|p] eqn:Hs; try lia.
    - exists m, 0%Z. split; [done|]. lia.
    - eexists _, _. split; [reflexivity|]. rewrite digits2_pos_iter_xO. lia. }
  destruct Hal as (mz & ez & -> & Hd & Hez).
  unfold binary_round_aux, shr_fexp, Zdigits2.
  assert (Hn : (fexp prec emax (Z.pos (digits2_pos mz) + ez) - ez = 0)%Z).
  { rewrite Hd. unfold fexp, SpecFloat.emin, prec, emax. lia. }
  rewrite Hn. cbn [shr shr_record_of_loc shr_m loc_of_shr_record round_nearest_even fst snd].
  rewrite Hn. cbn [shr shr_record_of_loc shr_m].
  exists mz, ez.
  destruct (Z.leb_spec ez (emax - prec)) as [|Hgt]; [done|].
  unfold emax, prec in Hgt. lia.
Qed.

Lemma valid_exponent (s : bool) (m : positive) (e : Z) :
  valid_binary (S754_finite s m e) = true -> (emin <= e)%Z.
Proof.
  unfold valid_binary, bounded, canonical_mantissa, fexp.
  intros H. apply andb_prop in H as [H _]. apply Z.eqb_eq in H. lia.
Qed.

Lemma binary_normalize_not_neg_zero (m e : Z) :
  (emin <= e)%Z -> binary_normalize prec emax m e false <> S754_zero true.
Proof.
  intros He. unfold binary_normalize, binary_round.
  destruct m as [|m|m]; [discriminate| |].
  all: destruct (shl_align m e _) as [mz ez] eqn:Ea;
    apply binary_round_aux_not_zero;
    unfold shl_align in Ea;
    destruct (fexp prec emax (Z.pos (digits2_pos m) + e) - e)%Z eqn:En;
    inversion Ea; subst; unfold fexp; lia.
Qed.

(** A sum is the negative zero only if its first operand is. *)
Lemma SFadd_not_neg_zero (x y : spec_float) :
  valid_binary x = true -> valid_binary y = true ->
  x <> S754_zero true -> SFadd prec emax x y <> S754_zero true.
Proof.
  intros Hx Hy Hnz.
  destruct x as [[]| [] | |sx mx ex], y as [[]| [] | |sy my ey];
    simpl; try discriminate; try congruence.
  apply binary_normalize_not_neg_zero.
  apply valid_exponent in Hx, Hy. lia.
Qed.

Lemma SFadd_zero_r (x : spec_float) (s : bool) :
  x <> S754_zero true -> SFadd prec emax x (S754_zero s) = x.
Proof.
  intros Hnz. destruct x as [[]| [] | |sx mx ex], s; simpl; congruence.
Qed.

Lemma add_not_neg_zero (a b : float) :
  Prim2SF a <> S754_zero true -> Prim2SF (a + b) <> S754_zero true.
Proof.
  intros Ha. rewrite add_spec.
  apply SFadd_not_neg_zero; auto using Prim2SF_valid.
Qed.

Lemma add_zero_r (a z : float) (s : bool) :
  Prim2SF a <> S754_zero true -> Prim2SF z = S754_zero s -> (a + z)%float = a.
Proof.
  intros Ha Hz. apply Prim2SF_inj.
  rewrite add_spec, Hz. unfold SF64add. by apply SFadd_zero_r.
Qed.

(** [z == 0] holds of the two zeros only. *)
Lemma eqb_zero (z : float) :
  (z =? 0)%float = true -> exists s, Prim2SF z = S754_zero s.
Proof.
  rewrite eqb_spec. change (Prim2SF 0) with (S754_zero false).
  unfold SFeqb. destruct (Prim2SF z) as [s|[]| |[] m e]; simpl; try discriminate.
  eauto.
Qed.

Lemma SFmul_comm (x y : spec_float) : SFmul prec emax x y = SFmul prec emax y x.
Proof.
  destruct x as [sx|sx| |sx mx ex], y as [sy|sy| |sy my ey]; simpl;
    rewrite ?(xorb_comm sx sy); try reflexivity.
  by rewrite Pos.mul_comm, Z.add_comm.
Qed.

Lemma mul_comm (a b : float) : (a * b)%float = (b * a)%float.
Proof.
  apply Prim2SF_inj. rewrite !mul_spec. apply SFmul_comm.
Qed.

(** *** The order on doubles that are not NaN *)

Lemma is_nan_false (x : float) :
  is_nan x = false -> Prim2SF x <> S754_nan.
Proof.
  unfold is_nan. rewrite eqb_spec. intros H Hn. rewrite Hn in H. discriminate.
Qed.

Lemma SFcompare_refl (x : spec_float) :
  x <> S754_nan -> SFcompare x x = Some Eq.
Proof.
  destruct x as [s|[]| |[] m e]; simpl; try congruence; intros _.
  all: rewrite Z.compare_refl; change (Pos.compare_cont Eq m m) with (m ?= m)%positive;
    by rewrite Pos.compare_refl.
Qed.

Lemma SFcompare_antisym (x y : spec_float) (c : comparison) :
  SFcompare x y = Some c -> SFcompare y x = Some (CompOpp c).
Proof.
  destruct x as [sx|sx| |sx mx ex], y as [sy|sy| |sy my ey]; simpl;
    try discriminate;
    try (destruct sx; try destruct sy; intros [= <-]; reflexivity).
  destruct sx, sy; try (intros [= <-]; reflexivity).
  all: rewrite (Z.compare_antisym ey ex);
    change (Pos.compare_cont Eq mx my) with (mx ?= my)%positive;
    change (Pos.compare_cont Eq my mx) with (my ?= mx)%positive;
    rewrite (Pos.compare_antisym my mx);
    destruct (ey ?= ex)%Z; simpl; try (intros [= <-]; reflexivity);
    destruct (my ?= mx)%positive; simpl; intros [= <-]; reflexivity.
Qed.

Lemma SFcompare_total (x y : spec_float) :
  x <> S754_nan -> y <> S754_nan -> exists c, SFcompare x y = Some c.
Proof.
  intros Hx Hy.
  destruct x as [sx|sx| |sx mx ex], y as [sy|sy| |sy my ey]; try congruence;
    simpl; eauto.
Qed.

Lemma is_nan_true (x : float) : is_nan x = true -> Prim2SF x = S754_nan.
Proof.
  unfold is_nan. rewrite eqb_spec. unfold SFeqb. intros H.
  destruct (Prim2SF x) as [s|s| |s m e] eqn:Hx; [| |done|];
    rewrite SFcompare_refl in H by done; discriminate H.
Qed.

Lemma leb_refl (x : float) : is_nan x = false -> (x <=? x)%float = true.
Proof.
  intros H%is_nan_false. rewrite leb_spec. unfold SFleb.
  by rewrite SFcompare_refl.
Qed.

Lemma leb_total (x y : float) :
  is_nan x = false -> is_nan y = false ->
  (x <=? y)%float = false -> (y <=? x)%float = true.
Proof.
  intros Hx%is_nan_false Hy%is_nan_false. rewrite !leb_spec. unfold SFleb.
  destruct (SFcompare_total _ _ Hx Hy) as [c Hc].
  rewrite Hc, (SFcompare_antisym _ _ _ Hc). by destruct c.
Qed.

Lemma ltb_irrefl (x : float) : (x <? x)%float = false.
Proof.
  rewrite ltb_spec. unfold SFltb.
  destruct (Prim2SF x) as [s|s| |s m e] eqn:Hx; [| |done|];
    by rewrite SFcompare_refl.
Qed.

Lemma ltb_leb (x y : float) : (x <? y)%float = true -> (x <=? y)%float = true.
Proof.
  rewrite ltb_spec, leb_spec. unfold SFltb, SFleb.
  by destruct (SFcompare _ _) as [[]|].
Qed.

Lemma leb_not_ltb (x y : float) : (x <=? y)%float = true -> (y <? x)%float = false.
Proof.
  rewrite ltb_spec, leb_spec. unfold SFltb, SFleb.
  destruct (SFcompare (Prim2SF x) (Prim2SF y)) as [c|] eqn:Hc; [|done].
  rewrite (SFcompare_antisym _ _ _ Hc). by destruct c.
Qed.

Lemma nan_ltb (x y : float) : is_nan x = true -> (x <? y)%float = false.
Proof.
  intros Hx%is_nan_true. rewrite ltb_spec. unfold SFltb. by rewrite Hx.
Qed.

End FloatFacts.

(** ** Facts about the Python operators *)

Module PyFacts.

Lemma float_of_int_raise (z : Z) (e : exn) :
  float_of_int z = Raise e -> e = OverflowError.
Proof.
  unfold float_of_int.
  destruct (binary_normalize prec emax z 0 false); congruence.
Qed.

Lemma sum_from_floats (l : list float) : forall acc : float,
  sum_from (Float acc) (Float <$> l) = Ok (Float (fold_left PrimFloat.add l acc)).
Proof.
  induction l as [|x l IH]; intros acc; simpl; [done|].
  apply IH.
Qed.

(** The sum of a non-empty list of doubles is the left fold of the
    addition from [0.0]; the sum of no doubles is the [int] 0. *)
Lemma sum_floats (l : list float) :
  sum (Float <$> l) =
  match l with
  | [] => Ok (Int 0)
  | _ :: _ => Ok (Float (fold_left PrimFloat.add l 0%float))
  end.
Proof.
  destruct l as [|x l]; [done|].
  unfold sum. simpl. apply sum_from_floats.
Qed.

Lemma sum_floats_ok (l : list float) : exists s, sum (Float <$> l) = Ok s.
Proof. rewrite sum_floats. destruct l; eauto. Qed.

Lemma truediv_int_nonzero (x : num) (c : Z) :
  c <> 0%Z -> truediv x (Int c) <> Raise ZeroDivisionError.
Proof.
  intros Hc. destruct x as [z|f]; simpl.
  - unfold int_true_divide. destruct (Z.eqb_spec c 0); [done|].
    by destruct (SFdiv _ _ _ _).
  - destruct (float_of_int c) as [b|e] eqn:Hb; simpl.
    + destruct (Z.eqb_spec c 0); done.
    + by rewrite (float_of_int_raise _ _ Hb).
Qed.

(** An [int] below [2^53] in absolute value converts to a [float]. *)
Lemma float_of_int_small (z : Z) :
  (0 <= z < 2 ^ 53)%Z -> exists f, float_of_int z = Ok f.
Proof.
  intros Hz. unfold float_of_int. destruct z as [|m|m]; [by eexists| |lia].
  destruct (FloatFacts.binary_normalize_small m) as (mz & ez & ->); [lia|].
  by eexists.
Qed.

Lemma truediv_float_int (a : float) (c : Z) :
  c <> 0%Z -> (0 <= c < 2 ^ 53)%Z ->
  exists f, truediv (Float a) (Int c) = Ok (Float f).
Proof.
  intros Hc Hsmall. cbn [truediv to_float].
  destruct (float_of_int_small c Hsmall) as [b ->]. cbn.
  destruct (Z.eqb_spec c 0); [done|]. by eexists.
Qed.

Lemma mul_comm_int_float (a : Z) (b : float) :
  mul (Int a) (Float b) = mul (Float b) (Int a).
Proof.
  simpl. destruct (float_of_int a); simpl; [|done].
  by rewrite FloatFacts.mul_comm.
Qed.

Lemma mul_float_int_cases (a : float) (z : Z) :
  (exists b, mul (Float a) (Int z) = Ok (Float b))
  \/ mul (Float a) (Int z) = Raise OverflowError.
Proof.
  simpl. destruct (float_of_int z) as [b|e] eqn:Hb; simpl; [eauto|].
  right. by rewrite (float_of_int_raise _ _ Hb).
Qed.

End PyFacts.

(** ** The aggregation of lines 77-88 *)

Module Aggregation.

Lemma per_class_lists_eq (aps : list class_result) :
  per_class_lists aps =
  (num_annotations_of <$> aps, average_precision_of <$> aps).
Proof.
  unfold per_class_lists.
  match goal with
  | |- fold_left ?f _ _ = _ =>
      enough (forall ti ps,
                fold_left f aps (ti, ps) =
                (ti ++ (num_annotations_of <$> aps),
                 ps ++ (average_precision_of <$> aps))) as H
        by apply (H [] [])
  end.
  induction aps as [|[l [ap n]] aps IH]; intros ti ps; simpl.
  - by rewrite !app_nil_r.
  - rewrite IH. by rewrite <- !app_assoc.
Qed.

Lemma mean_ap_unfold (w : bool) (aps : list class_result) :
  mean_ap w aps =
  mean_ap_of_lists w (num_annotations_of <$> aps) (average_precision_of <$> aps).
Proof. unfold mean_ap. by rewrite per_class_lists_eq. Qed.

Lemma int_gt0_annotated (r : class_result) :
  int_gt0 (Z.of_N (num_annotations_of r)) = annotated r.
Proof.
  unfold int_gt0, annotated.
  destruct (Z.ltb_spec 0 (Z.of_N (num_annotations_of r))),
           (N.ltb_spec 0 (num_annotations_of r)); done || lia.
Qed.

Lemma count_from (aps : list class_result) : forall a : Z,
  sum_from (Int a)
    ((fun x => of_bool (int_gt0 (Z.of_N x))) <$> (num_annotations_of <$> aps)) =
  Ok (Int (a + Z.of_nat (length (filter (fun r => annotated r = true) aps)))).
Proof.
  induction aps as [|r aps IH]; intros a; simpl.
  - do 2 f_equal. lia.
  - rewrite IH, int_gt0_annotated.
    destruct (annotated r) eqn:Har.
    + rewrite filter_cons_True by done. simpl length. do 2 f_equal. lia.
    + rewrite filter_cons_False by congruence. do 2 f_equal. lia.
Qed.

Lemma unweighted_denominator_count (aps : list class_result) :
  unweighted_denominator (num_annotations_of <$> aps) =
  Ok (Int (Z.of_nat (length (filter (fun r => annotated r = true) aps)))).
Proof. unfold unweighted_denominator, sum. by rewrite count_from. Qed.

Lemma mean_ap_unweighted (aps : list class_result) :
  mean_ap false aps = sum_over_all_by_annotated aps.
Proof.
  rewrite mean_ap_unfold. unfold mean_ap_of_lists, sum_over_all_by_annotated.
  destruct (PyFacts.sum_floats_ok (average_precision_of <$> aps)) as [s ->].
  simpl. by rewrite unweighted_denominator_count.
Qed.

Lemma annotated_count_pos (aps : list class_result) :
  Exists (fun r => annotated r = true) aps ->
  Z.of_nat (length (filter (fun r => annotated r = true) aps)) <> 0%Z.
Proof.
  intros (r & Hr & Ha)%Exists_exists.
  assert (r ∈ filter (fun r => annotated r = true) aps) as Hin
    by (apply list_elem_of_filter; auto).
  destruct (filter _ aps); [by apply not_elem_of_nil in Hin|simpl; lia].
Qed.

Lemma zero_not_neg_zero : Prim2SF 0%float <> S754_zero true.
Proof. by vm_compute. Qed.

(** Adding the zeros of the classes without annotations changes no
    partial sum. *)
Lemma fold_add_skip_zeros (aps : list class_result) : forall acc : float,
  Prim2SF acc <> S754_zero true ->
  (forall r, r ∈ aps -> annotated r = false ->
             (average_precision_of r =? 0)%float = true) ->
  fold_left PrimFloat.add (average_precision_of <$> aps) acc =
  fold_left PrimFloat.add
    (average_precision_of <$> filter (fun r => annotated r = true) aps) acc.
Proof.
  induction aps as [|r aps IH]; intros acc Hacc Hz; [done|].
  assert (Hz' : forall r', r' ∈ aps -> annotated r' = false ->
                  (average_precision_of r' =? 0)%float = true).
  { intros r' Hin. apply Hz. by right. }
  destruct (annotated r) eqn:Har.
  - rewrite filter_cons_True by done. simpl.
    apply IH; [by apply FloatFacts.add_not_neg_zero|done].
  - rewrite filter_cons_False by congruence. simpl.
    destruct (FloatFacts.eqb_zero (average_precision_of r)) as [s Hs].
    { apply Hz; [by left|done]. }
    rewrite (FloatFacts.add_zero_r acc _ s) by done.
    by apply IH.
Qed.

Lemma mean_over_annotated_eq (aps : list class_result) :
  Exists (fun r => annotated r = true) aps ->
  (forall r, r ∈ aps -> annotated r = false ->
             (average_precision_of r =? 0)%float = true) ->
  sum_over_all_by_annotated aps = mean_over_annotated aps.
Proof.
  intros Hex Hz. unfold sum_over_all_by_annotated, mean_over_annotated, arithmetic_mean.
  rewrite length_fmap, !PyFacts.sum_floats.
  rewrite (fold_add_skip_zeros aps 0%float zero_not_neg_zero Hz).
  pose proof (annotated_count_pos aps Hex) as Hc.
  destruct aps as [|r aps]; [by apply Exists_nil in Hex|].
  destruct (filter _ (r :: aps)) as [|r' f']; [done|].
  reflexivity.
Qed.

Lemma products_eq (aps : list class_result) :
  zip_with_r (fun a b => mul (int_of_count a) (Float b))
    (num_annotations_of <$> aps) (average_precision_of <$> aps) =
  mapM (fun r => mul (Float (average_precision_of r))
                   (int_of_count (num_annotations_of r))) aps.
Proof.
  induction aps as [|r aps IH]; [done|].
  cbn [fmap list_fmap zip_with_r mapM]. unfold int_of_count in *.
  rewrite PyFacts.mul_comm_int_float, IH. reflexivity.
Qed.

(** Each product is a double, unless a count is too large for one. *)
Lemma products_cases (aps : list class_result) :
  (exists fs : list float,
     mapM (fun r => mul (Float (average_precision_of r))
                      (int_of_count (num_annotations_of r))) aps
     = Ok (Float <$> fs))
  \/ mapM (fun r => mul (Float (average_precision_of r))
                      (int_of_count (num_annotations_of r))) aps
     = Raise OverflowError.
Proof.
  set (f := fun r => mul _ _).
  induction aps as [|r aps IH]; [left; by exists []|].
  cbn [mapM].
  destruct (PyFacts.mul_float_int_cases (average_precision_of r)
              (Z.of_N (num_annotations_of r))) as [[b Hb]|Hb];
    fold (int_of_count (num_annotations_of r)) in Hb; fold (f r) in Hb;
    rewrite Hb; [|by right].
  destruct IH as [[fs ->]| ->]; [left|by right].
  by exists (b :: fs).
Qed.

Lemma sum_counts_from (ns : list N) : forall a : Z,
  sum_from (Int a) (int_of_count <$> ns) =
  Ok (Int (a + Z.of_N (foldr N.add 0%N ns))).
Proof.
  induction ns as [|n ns IH]; intros a; simpl.
  - do 2 f_equal. lia.
  - rewrite IH. do 2 f_equal. lia.
Qed.

Lemma sum_counts (aps : list class_result) :
  sum (int_of_count <$> (num_annotations_of <$> aps)) =
  Ok (Int (Z.of_N (total_annotations aps))).
Proof. unfold sum. by rewrite sum_counts_from. Qed.

Lemma mean_ap_weighted (aps : list class_result) :
  mean_ap true aps = weighted_mean aps.
Proof.
  rewrite mean_ap_unfold. unfold mean_ap_of_lists, weighted_mean.
  rewrite products_eq.
  destruct (mapM _ aps) as [ps|e]; [|done]. cbn [mbind result_bind bind].
  destruct (sum ps) as [s|e]; [|done]. cbn [mbind result_bind bind].
  by rewrite sum_counts.
Qed.

Lemma total_annotations_0 (aps : list class_result) :
  total_annotations aps = 0%N ->
  Forall (fun r => num_annotations_of r = 0%N) aps.
Proof.
  unfold total_annotations.
  induction aps as [|r aps IH]; [constructor|].
  rewrite fmap_cons. cbn [foldr]. intros H. constructor.
  - lia.
  - apply IH. lia.
Qed.

Lemma products_of_no_annotations (aps : list class_result) :
  Forall (fun r => num_annotations_of r = 0%N) aps ->
  mapM (fun r => mul (Float (average_precision_of r))
                   (int_of_count (num_annotations_of r))) aps
  = Ok (Float <$> ((fun r => (average_precision_of r * 0)%float) <$> aps)).
Proof.
  set (f := fun r => mul _ _).
  induction 1 as [|r aps Hr _ IH]; [done|].
  cbn [mapM]. rewrite IH. unfold f. rewrite Hr. reflexivity.
Qed.

Lemma no_annotated (aps : list class_result) :
  Forall (fun r => num_annotations_of r = 0%N) aps ->
  filter (fun r => annotated r = true) aps = [].
Proof.
  induction 1 as [|r aps Hr _ IH]; [done|].
  rewrite filter_cons_False; [done|].
  unfold annotated. rewrite Hr. done.
Qed.

(** With at least one annotated class and fewer than [2^53] classes the
    unweighted aggregation returns a [float]. *)
Lemma unweighted_returns (aps : list class_result) :
  Exists (fun r => annotated r = true) aps ->
  (Z.of_nat (length aps) < 2 ^ 53)%Z ->
  exists f, mean_ap false aps = Ok (Float f).
Proof.
  intros Hex Hlen. rewrite mean_ap_unweighted. unfold sum_over_all_by_annotated.
  rewrite PyFacts.sum_floats.
  pose proof (annotated_count_pos aps Hex) as Hc.
  pose proof (length_filter (fun r => annotated r = true) aps) as Hle.
  destruct aps as [|r aps]; [by apply Exists_nil in Hex|].
  rewrite fmap_cons. cbn [mbind result_bind bind].
  apply PyFacts.truediv_float_int; [done|lia].
Qed.

Lemma num_annotations_le_total (aps : list class_result) :
  Forall (fun r => (num_annotations_of r <= total_annotations aps)%N) aps.
Proof.
  unfold total_annotations.
  induction aps as [|r aps IH]; [constructor|].
  rewrite fmap_cons. cbn [foldr]. constructor; [lia|].
  eapply Forall_impl; [exact IH|]. cbn. intros r' Hr'. lia.
Qed.

Lemma products_of_small_counts (aps : list class_result) :
  Forall (fun r => (Z.of_N (num_annotations_of r) < 2 ^ 53)%Z) aps ->
  exists fs : list float,
    mapM (fun r => mul (Float (average_precision_of r))
                     (int_of_count (num_annotations_of r))) aps
    = Ok (Float <$> fs)
    /\ length fs = length aps.
Proof.
  set (f := fun r => mul _ _).
  induction 1 as [|r aps Hr _ (fs & IH & Hlen)]; [by exists []|].
  cbn [mapM]. rewrite IH.
  destruct (PyFacts.float_of_int_small (Z.of_N (num_annotations_of r)))
    as [b Hb]; [lia|].
  exists ((average_precision_of r * b)%float :: fs).
  unfold f, int_of_count. cbn [mul to_float]. rewrite Hb.
  split; [reflexivity|]. cbn. by rewrite Hlen.
Qed.

(** With a positive total below [2^53] the weighted aggregation returns
    a [float]. *)
Lemma weighted_returns (aps : list class_result) :
  (0 < total_annotations aps < 2 ^ 53)%N ->
  exists f, mean_ap true aps = Ok (Float f).
Proof.
  intros [Hpos Hsmall]. rewrite mean_ap_weighted. unfold weighted_mean.
  assert (Hz : (Z.of_N (total_annotations aps) < 2 ^ 53)%Z).
  { change (2 ^ 53)%Z with (Z.of_N (2 ^ 53)). lia. }
  destruct (products_of_small_counts aps) as (fs & -> & Hlen).
  { eapply Forall_impl; [apply num_annotations_le_total|].
    cbn. intros r Hr. lia. }
  cbn [mbind result_bind bind]. rewrite PyFacts.sum_floats.
  destruct fs as [|x fs].
  { destruct aps; [|discriminate Hlen]. cbn in Hpos. lia. }
  cbn [mbind result_bind bind].
  apply PyFacts.truediv_float_int; lia.
Qed.

Lemma unweighted_no_annotations (aps : list class_result) :
  Forall (fun r => num_annotations_of r = 0%N) aps ->
  mean_ap false aps = Raise ZeroDivisionError.
Proof.
  intros Hall. rewrite mean_ap_unweighted.
  unfold sum_over_all_by_annotated.
  rewrite (no_annotated aps Hall), PyFacts.sum_floats.
  by destruct (average_precision_of <$> aps).
Qed.

Lemma weighted_no_annotations (aps : list class_result) :
  total_annotations aps = 0%N ->
  mean_ap true aps = Raise ZeroDivisionError.
Proof.
  intros Htot. rewrite mean_ap_weighted. unfold weighted_mean.
  rewrite Htot.
  rewrite (products_of_no_annotations aps) by by apply total_annotations_0.
  cbn [mbind result_bind bind]. rewrite PyFacts.sum_floats.
  by destruct (_ <$> aps).
Qed.

End Aggregation.

(** ** The running maximum of line 74 *)

Module Maximum.

Lemma np_maximum_not_below_l (a b : float) : (np_maximum a b <? a)%float = false.
Proof.
  unfold np_maximum.
  destruct (b <=? a)%float eqn:Hba; simpl.
  - apply FloatFacts.ltb_irrefl.
  - destruct (is_nan a); [apply FloatFacts.ltb_irrefl|].
    destruct (b <? a)%float eqn:Hlt; [|done].
    apply FloatFacts.ltb_leb in Hlt. congruence.
Qed.

Lemma np_maximum_not_below_r (a b : float) : (np_maximum a b <? b)%float = false.
Proof.
  unfold np_maximum.
  destruct (b <=? a)%float eqn:Hba; simpl.
  - by apply FloatFacts.leb_not_ltb.
  - destruct (is_nan a) eqn:Ha; [by apply FloatFacts.nan_ltb|].
    apply FloatFacts.ltb_irrefl.
Qed.

Lemma np_maximum_number (a b : float) :
  is_nan a = false -> is_nan b = false -> is_nan (np_maximum a b) = false.
Proof. unfold np_maximum. by destruct (_ || _). Qed.

Lemma np_maximum_ge_l (a b : float) :
  is_nan a = false -> is_nan b = false -> (a <=? np_maximum a b)%float = true.
Proof.
  intros Ha Hb. unfold np_maximum. rewrite Ha, orb_false_r.
  destruct (b <=? a)%float eqn:Hba.
  - by apply FloatFacts.leb_refl.
  - by apply FloatFacts.leb_total.
Qed.

Lemma np_maximum_ge_r (a b : float) :
  is_nan a = false -> is_nan b = false -> (b <=? np_maximum a b)%float = true.
Proof.
  intros Ha Hb. unfold np_maximum. rewrite Ha, orb_false_r.
  destruct (b <=? a)%float eqn:Hba; [done|].
  by apply FloatFacts.leb_refl.
Qed.

Lemma accumulate_from_length (a : list float) : forall acc,
  length (accumulate_from acc a) = length a.
Proof. induction a as [|x a IH]; intros acc; simpl; [done|]. by rewrite IH. Qed.

Lemma np_maximum_accumulate_length (a : list float) :
  length (np_maximum_accumulate a) = length a.
Proof. destruct a; simpl; [done|]. by rewrite accumulate_from_length. Qed.

Lemma decreasing_max_precision_length (p : list float) :
  length (decreasing_max_precision p) = length p.
Proof.
  unfold decreasing_max_precision.
  by rewrite length_reverse, np_maximum_accumulate_length, length_reverse.
Qed.

(** The list facts need only what [np.maximum] does to a relation [R]
    ("is not above") on a domain [D] of doubles closed under it. *)
Section Envelope.

Variable D : float -> Prop.
Variable R : float -> float -> Prop.
Hypothesis D_max : forall a b, D a -> D b -> D (np_maximum a b).
Hypothesis R_refl : forall a, D a -> R a a.
Hypothesis R_max_l : forall a b, D a -> D b -> R a (np_maximum a b).
Hypothesis R_max_r : forall a b, D a -> D b -> R b (np_maximum a b).

Lemma accumulate_from_above (a : list float) : forall acc,
  D acc -> Forall D a -> Forall2 R a (accumulate_from acc a).
Proof.
  induction a as [|x a IH]; intros acc Hacc Ha; simpl; [constructor|].
  inversion Ha as [|? ? Hx Ha']; subst.
  constructor; [by apply R_max_r|]. apply IH; [by apply D_max|done].
Qed.

Lemma accumulate_from_chain (a : list float) : forall acc,
  D acc -> Forall D a ->
  forall i x y,
    (acc :: accumulate_from acc a) !! i = Some x ->
    (acc :: accumulate_from acc a) !! S i = Some y ->
    R x y.
Proof.
  induction a as [|x0 a IH]; intros acc Hacc Ha i x y Hx Hy.
  - destruct i; simpl in Hy; discriminate Hy.
  - inversion Ha as [|? ? Hx0 Ha']; subst.
    destruct i as [|i]; simpl in Hx, Hy.
    + injection Hx as <-. injection Hy as <-. by apply R_max_l.
    + apply (IH (np_maximum acc x0) (D_max _ _ Hacc Hx0) Ha' i); done.
Qed.

Lemma accumulate_above (a : list float) :
  Forall D a -> Forall2 R a (np_maximum_accumulate a).
Proof.
  destruct a as [|x a]; intros Ha; simpl; [constructor|].
  inversion Ha as [|? ? Hx Ha']; subst.
  constructor; [by apply R_refl|]. by apply accumulate_from_above.
Qed.

Lemma accumulate_chain (a : list float) :
  Forall D a ->
  forall i x y,
    np_maximum_accumulate a !! i = Some x ->
    np_maximum_accumulate a !! S i = Some y ->
    R x y.
Proof.
  destruct a as [|x0 a]; intros Ha i x y Hx Hy; [discriminate Hx|].
  inversion Ha as [|? ? Hx0 Ha']; subst.
  by apply (accumulate_from_chain a x0 Hx0 Ha' i).
Qed.

Lemma decreasing_max_precision_above (p : list float) :
  Forall D p ->
  forall i x y,
    p !! i = Some x -> decreasing_max_precision p !! i = Some y -> R x y.
Proof.
  intros Hp i x y Hx Hy.
  assert (H2 : Forall2 R p (decreasing_max_precision p)).
  { rewrite <- (reverse_involutive p) at 1. unfold decreasing_max_precision.
    apply Forall2_reverse, accumulate_above. by apply Forall_reverse. }
  by apply (Forall2_lookup_lr _ _ _ _ _ _ H2 Hx Hy).
Qed.

Lemma decreasing_max_precision_chain (p : list float) :
  Forall D p ->
  forall i x y,
    decreasing_max_precision p !! i = Some x ->
    decreasing_max_precision p !! S i = Some y ->
    R y x.
Proof.
  intros Hp i x y Hx Hy. unfold decreasing_max_precision in Hx, Hy.
  apply reverse_lookup_Some in Hx as [Hx _].
  apply reverse_lookup_Some in Hy as [Hy Hlt].
  apply (accumulate_chain (reverse p)) with
    (i := (length (np_maximum_accumulate (reverse p)) - S (S i))%nat);
    [by apply Forall_reverse|done|].
  rewrite <- Hx. f_equal. lia.
Qed.

End Envelope.

End Maximum.

(** ** The effects of [on_epoch_end] on the heap *)

Module Effects.

(** The quotient of a true division is a [float]. *)
Lemma truediv_float (x y m : num) :
  truediv x y = Ok m -> exists f, m = Float f.
Proof.
  destruct x as [a|a], y as [b|b]; cbn.
  - unfold int_true_divide. destruct (b =? 0)%Z; [done|].
    destruct (SFdiv _ _ _ _); intros [= <-]; eauto.
  - destruct (float_of_int a); cbn; [|done].
    destruct (b =? 0)%float; intros [= <-]; eauto.
  - destruct (float_of_int b); cbn; [|done].
    destruct (b =? 0)%Z; intros [= <-]; eauto.
  - destruct (b =? 0)%float; intros [= <-]; eauto.
Qed.

Lemma mean_ap_float (w : bool) (aps : list class_result) (m : num) :
  mean_ap w aps = Ok m -> exists f, m = Float f.
Proof.
  rewrite Aggregation.mean_ap_unfold. unfold mean_ap_of_lists.
  destruct w.
  - destruct (zip_with_r _ _ _) as [products|e]; [|done]. cbn.
    destruct (sum products) as [numerator|e]; [|done]. cbn.
    destruct (sum _) as [denominator|e]; [|done]. cbn.
    apply truediv_float.
  - destruct (sum _) as [numerator|e]; [|done]. cbn.
    destruct (unweighted_denominator _) as [denominator|e]; [|done]. cbn.
    apply truediv_float.
Qed.

Lemma format_f_float (f : float) : format_f (Float f) = Ok tt.
Proof. reflexivity. Qed.

Lemma format_f_cases (x : num) :
  format_f x = Ok tt \/ format_f x = Raise OverflowError.
Proof.
  destruct x as [z|f]; [|by left]. unfold format_f. cbn.
  destruct (float_of_int z) as [b|e] eqn:Hz; cbn; [by left|].
  right. by rewrite (PyFacts.float_of_int_raise _ _ Hz).
Qed.

(** The count of a class without annotations formats, and so does every
    count below [2^53]. *)
Lemma count_formats_zero (r : class_result) :
  num_annotations_of r = 0%N -> count_formats r.
Proof. unfold count_formats. by intros ->. Qed.

Lemma count_formats_small (r : class_result) :
  (num_annotations_of r < 2 ^ 53)%N -> count_formats r.
Proof.
  intros Hn. unfold count_formats, format_f, int_of_count. cbn.
  destruct (PyFacts.float_of_int_small (Z.of_N (num_annotations_of r)))
    as [b ->]; [|done].
  change (2 ^ 53)%Z with (Z.of_N (2 ^ 53)). lia.
Qed.

Lemma set_stdout_same (s : state) : set_stdout (stdout s ++ []) s = s.
Proof. destruct s. unfold set_stdout. cbn. by rewrite app_nil_r. Qed.

(** Either every count formats, or there is a first class whose count
    does not. *)
Lemma formats_or_fails (aps : list class_result) :
  Forall count_formats aps
  \/ exists pre r post,
       aps = pre ++ r :: post
       /\ Forall count_formats pre
       /\ format_f (int_of_count (num_annotations_of r)) = Raise OverflowError.
Proof.
  induction aps as [|r aps IH]; [by left|].
  destruct (format_f_cases (int_of_count (num_annotations_of r))) as [Hr|Hr].
  - destruct IH as [IH|(pre & r' & post & -> & Hpre & Hr')].
    + left. by constructor.
    + right. exists (r :: pre), r', post. split; [done|]. split; [|done].
      by constructor.
  - right. exists [], r, aps. by repeat split.
Qed.

Section Run.

Variable evaluate : float -> float -> Z -> option string -> result evaluation.
Variable label_to_name : Z -> string.
Variable tensorboard_write : list tb_request -> result unit.


Lemma logs_or_new_fresh (logs : option loc) (s : state) :
  logs = None \/ (exists l, logs = Some l /\ heap s !! l = Some ∅) ->
  logs_or_new logs s =
  (Ok (fresh (dom (heap s))),
   set_heap (<[fresh (dom (heap s)) := ∅]> (heap s)) s).
Proof.
  intros [->|(l & -> & Hl)]; [done|].
  unfold logs_or_new, gets, deref, mbind, M_bind. rewrite Hl. cbn.
  by destruct (decide (∅ = ∅)).
Qed.

(** The loop of lines 79-84 when no format raises: the lists of the
    counts and of the precisions, and one line per class when
    [verbose == 1]. *)
Lemma class_loop_returns (self : Evaluate) (aps : list class_result) :
  (verbose self = 1%Z -> Forall count_formats aps) ->
  forall ti ps s,
    class_loop label_to_name self aps ti ps s =
    (Ok (ti ++ (num_annotations_of <$> aps), ps ++ (average_precision_of <$> aps)),
     set_stdout
       (stdout s ++ (if (verbose self =? 1)%Z then class_lines label_to_name aps
                     else [])) s).
Proof.
  intros Hfmt.
  induction aps as [|[label [ap n]] aps IH]; intros ti ps s.
  - cbn. rewrite !app_nil_r. destruct (verbose self =? 1)%Z;
      by rewrite set_stdout_same.
  - assert (Hfmt' : verbose self = 1%Z -> Forall count_formats aps).
    { intros Hv. specialize (Hfmt Hv). by inversion Hfmt. }
    cbn [class_loop]. unfold mbind, M_bind at 1.
    destruct (Z.eqb_spec (verbose self) 1) as [Hv|Hv].
    + assert (Hr : format_f (int_of_count n) = Ok tt).
      { specialize (Hfmt Hv). by inversion Hfmt. }
      unfold mbind, M_bind, lift, print, modify. rewrite Hr.
      rewrite (IH Hfmt'). cbn. unfold set_stdout. cbn.
      by rewrite <- !app_assoc.
    + unfold mret, M_ret. rewrite (IH Hfmt'). cbn.
      by rewrite <- !app_assoc.
Qed.

(** The loop when the count of a class does not format: the lines of the
    classes before it are printed and [OverflowError] is raised. *)
Lemma class_loop_raises (self : Evaluate) (pre : list class_result)
    (r : class_result) (post : list class_result) :
  verbose self = 1%Z ->
  Forall count_formats pre ->
  format_f (int_of_count (num_annotations_of r)) = Raise OverflowError ->
  forall ti ps s,
    class_loop label_to_name self (pre ++ r :: post) ti ps s =
    (Raise OverflowError,
     set_stdout (stdout s ++ class_lines label_to_name pre) s).
Proof.
  intros Hv Hpre Hr. apply Z.eqb_eq in Hv.
  induction Hpre as [|[label [ap n]] pre Hr0 Hpre IH]; intros ti ps s.
  - destruct r as [label [ap n]]. cbn [app class_loop].
    unfold mbind, M_bind, lift, print, modify. rewrite Hv.
    change (format_f (int_of_count n) = Raise OverflowError) in Hr.
    rewrite Hr. cbn. by rewrite set_stdout_same.
  - cbn [app class_loop]. unfold mbind, M_bind at 1. rewrite Hv.
    unfold mbind, M_bind, lift, print, modify.
    change (format_f (int_of_count n) = Ok tt) in Hr0. rewrite Hr0.
    rewrite IH. cbn. unfold set_stdout. cbn. by rewrite <- !app_assoc.
Qed.

Lemma evaluate_and_log_evaluate_raises (self : Evaluate) (epoch : Z) (l : loc)
    (s : state) (e : exn) :
  evaluate (iou_threshold self) (score_threshold self)
    (max_detections self) (save_path self) = Raise e ->
  evaluate_and_log evaluate label_to_name tensorboard_write self epoch l s
  = (Raise e, s).
Proof.
  intros Hev. unfold evaluate_and_log, mbind, M_bind, lift. by rewrite Hev.
Qed.

(** Lines 64-127 when the count of a class does not format. *)
Lemma evaluate_and_log_format_raises (self : Evaluate) (epoch : Z) (l : loc)
    (s : state) (ev : evaluation) (pre : list class_result) (r : class_result)
    (post : list class_result) :
  evaluate (iou_threshold self) (score_threshold self)
    (max_detections self) (save_path self) = Ok ev ->
  verbose self = 1%Z ->
  average_precisions ev = pre ++ r :: post ->
  Forall count_formats pre ->
  format_f (int_of_count (num_annotations_of r)) = Raise OverflowError ->
  evaluate_and_log evaluate label_to_name tensorboard_write self epoch l s
  = (Raise OverflowError,
     {| heap := heap s; stdout := stdout s ++ class_lines label_to_name pre;
        self_recall := Some (recall ev);
        self_precision := Some (precision ev);
        self_mean_ap := self_mean_ap s |}).
Proof.
  intros Hev Hv Hsplit Hpre Hr.
  unfold evaluate_and_log, mbind, M_bind, lift, set_recall_precision, modify.
  rewrite Hev, Hsplit. cbn zeta.
  by rewrite (class_loop_raises self pre r post Hv Hpre Hr).
Qed.

(** Lines 64-127 when [evaluate] returns and every count formats, case by
    case: the exception or the final state. *)
Lemma evaluate_and_log_run (self : Evaluate) (epoch : Z) (l : loc) (s : state)
    (ev : evaluation) :
  evaluate (iou_threshold self) (score_threshold self)
    (max_detections self) (save_path self) = Ok ev ->
  (verbose self = 1%Z -> Forall count_formats (average_precisions ev)) ->
  evaluate_and_log evaluate label_to_name tensorboard_write self epoch l s =
  let lines := if (verbose self =? 1)%Z
               then class_lines label_to_name (average_precisions ev)
               else [] in
  match mean_ap (weighted_average self) (average_precisions ev) with
  | Raise e =>
      (Raise e,
       {| heap := heap s; stdout := stdout s ++ lines;
          self_recall := Some (recall ev);
          self_precision := Some (precision ev);
          self_mean_ap := self_mean_ap s |})
  | Ok m =>
      match match tensorboard self with
            | Some log_dir =>
                tensorboard_write
                  (tensorboard_requests label_to_name self log_dir epoch
                     (average_precisions ev) m (recall ev)
                     (decreasing_max_precision (precision ev)))
            | None => Ok tt
            end with
      | Raise e =>
          (Raise e,
           {| heap := heap s; stdout := stdout s ++ lines;
              self_recall := Some (recall ev);
              self_precision := Some (precision ev);
              self_mean_ap := Some m |})
      | Ok _ =>
          (Ok tt,
           {| heap := <[l := <["mAP" := m]> (deref (heap s) l)]> (heap s);
              stdout := stdout s ++ lines
                        ++ (if (verbose self =? 1)%Z then [MapLine m] else []);
              self_recall := Some (recall ev);
              self_precision := Some (precision ev);
              self_mean_ap := Some m |})
      end
  end.
Proof.
  intros Hev Hfmt.
  unfold evaluate_and_log, mbind, M_bind, lift, set_recall_precision, modify.
  rewrite Hev. cbn zeta.
  rewrite (class_loop_returns self (average_precisions ev) Hfmt). cbn [fst snd app].
  rewrite <- Aggregation.mean_ap_unfold.
  destruct (mean_ap _ _) as [m|e] eqn:Hm; [|done].
  destruct (mean_ap_float _ _ _ Hm) as [f ->].
  unfold set_mean_ap, setitem, print, modify, mret, M_ret, set_heap, set_stdout.
  cbn.
  destruct (tensorboard self) as [log_dir|]; cbn;
    [destruct (tensorboard_write _) as [[]|e]; [|done]|];
    destruct (verbose self =? 1)%Z; cbn;
    rewrite ?app_nil_r, <- ?app_assoc; done.
Qed.

(** Lines 64-127 either raise and leave the heap as it is, or return
    and store the mean average precision under ["mAP"]. *)
Lemma evaluate_and_log_cases (self : Evaluate) (epoch : Z) (l : loc) (s : state) :
  let r := evaluate_and_log evaluate label_to_name tensorboard_write self epoch l s in
  (exists e, r.1 = Raise e /\ heap r.2 = heap s)
  \/ (exists ev m,
        evaluate (iou_threshold self) (score_threshold self)
          (max_detections self) (save_path self) = Ok ev
        /\ mean_ap (weighted_average self) (average_precisions ev) = Ok m
        /\ r.1 = Ok tt
        /\ self_mean_ap r.2 = Some m
        /\ heap r.2 = <[l := <["mAP" := m]> (deref (heap s) l)]> (heap s)).
Proof.
  cbn zeta.
  destruct (evaluate (iou_threshold self) (score_threshold self)
              (max_detections self) (save_path self)) as [ev|e] eqn:Hev.
  2: { rewrite (evaluate_and_log_evaluate_raises _ _ _ _ _ Hev). left. eauto. }
  destruct (formats_or_fails (average_precisions ev))
    as [Hfmt|(pre & r & post & Hsplit & Hpre & Hr)].
  - rewrite (evaluate_and_log_run self epoch l s ev Hev (fun _ => Hfmt)).
    cbn zeta. destruct (mean_ap _ _) as [m|e] eqn:Hm; [|left; eauto].
    destruct (match tensorboard self with Some _ => _ | None => _ end)
      as [[]|e]; [|left; eauto].
    right. exists ev, m. by repeat split.
  - destruct (Z.eq_dec (verbose self) 1) as [Hv|Hv].
    + rewrite (evaluate_and_log_format_raises self epoch l s ev pre r post
                 Hev Hv Hsplit Hpre Hr). left. eauto.
    + rewrite (evaluate_and_log_run self epoch l s ev Hev
                 (fun H => False_ind _ (Hv H))).
      cbn zeta. destruct (mean_ap _ _) as [m|e] eqn:Hm; [|left; eauto].
      destruct (match tensorboard self with Some _ => _ | None => _ end)
        as [[]|e]; [|left; eauto].
      right. exists ev, m. by repeat split.
Qed.


(** Line 62 never raises, does not touch [self.mean_ap] and leaves every
    dictionary of the heap as it is. *)
Lemma logs_or_new_frame (logs : option loc) (s : state) :
  exists l s1,
    logs_or_new logs s = (Ok l, s1)
    /\ self_mean_ap s1 = self_mean_ap s
    /\ (forall l' d, heap s !! l' = Some d -> heap s1 !! l' = Some d).
Proof.
  assert (Hnew : exists l s1,
            new_dict s = (Ok l, s1)
            /\ self_mean_ap s1 = self_mean_ap s
            /\ (forall l' d, heap s !! l' = Some d -> heap s1 !! l' = Some d)).
  { eexists _, _. split; [reflexivity|]. split; [done|].
    intros l' d Hl'. cbn. rewrite lookup_insert_ne; [done|].
    intros <-. apply (is_fresh (dom (heap s))), elem_of_dom. by eexists. }
  destruct logs as [l|]; [|exact Hnew].
  unfold logs_or_new, gets, mbind, M_bind.
  destruct (decide (deref (heap s) l = ∅)); [exact Hnew|].
  exists l, s. by repeat split.
Qed.

(** When the aggregation raises, lines 64-127 raise the same exception
    before [self.mean_ap] is assigned and before the log is written. *)
Lemma evaluate_and_log_raises (self : Evaluate) (epoch : Z) (l : loc) (s : state)
    (ev : evaluation) (e : exn) :
  evaluate (iou_threshold self) (score_threshold self)
    (max_detections self) (save_path self) = Ok ev ->
  (verbose self = 1%Z -> Forall count_formats (average_precisions ev)) ->
  mean_ap (weighted_average self) (average_precisions ev) = Raise e ->
  (evaluate_and_log evaluate label_to_name tensorboard_write self epoch l s).1
    = Raise e
  /\ self_mean_ap
       (evaluate_and_log evaluate label_to_name tensorboard_write self epoch l s).2
     = self_mean_ap s
  /\ heap
       (evaluate_and_log evaluate label_to_name tensorboard_write self epoch l s).2
     = heap s.
Proof.
  intros Hev Hfmt Hm.
  rewrite (evaluate_and_log_run self epoch l s ev Hev Hfmt). cbn zeta.
  by rewrite Hm.
Qed.

Lemma on_epoch_end_raises (self : Evaluate) (epoch : Z) (logs : option loc)
    (s : state) (ev : evaluation) (e : exn) :
  evaluate (iou_threshold self) (score_threshold self)
    (max_detections self) (save_path self) = Ok ev ->
  (verbose self = 1%Z -> Forall count_formats (average_precisions ev)) ->
  mean_ap (weighted_average self) (average_precisions ev) = Raise e ->
  (on_epoch_end evaluate label_to_name tensorboard_write self epoch logs s).1
    = Raise e
  /\ self_mean_ap
       (on_epoch_end evaluate label_to_name tensorboard_write self epoch logs s).2
     = self_mean_ap s
  /\ (forall l d,
        heap s !! l = Some d ->
        heap (on_epoch_end evaluate label_to_name tensorboard_write self epoch
                logs s).2 !! l = Some d).
Proof.
  intros Hev Hfmt Hm. unfold on_epoch_end, mbind, M_bind.
  destruct (logs_or_new_frame logs s) as (l1 & s1 & -> & Hmap & Hheap).
  destruct (evaluate_and_log_raises self epoch l1 s1 ev e Hev Hfmt Hm)
    as (Hr & Hmap' & Hheap').
  destruct (evaluate_and_log _ _ _ _ _ _ s1) as [r s2]. cbn in *. subst r.
  split; [done|]. split; [congruence|].
  intros l d Hl. rewrite Hheap'. by apply Hheap.
Qed.

End Run.

End Effects.

(** ** The properties of the aggregation *)

(** C1 (defect of line 88): the claim does not hold of the code.  With
    [{A: (1.0, 1), B: (1.0, 0)}], where class A has annotations, the code
    returns [(1.0 + 1.0) / 1 = 2.0], while the arithmetic mean of
    [average_precision] over the classes with [num_annotations > 0] is
    [1.0]: line 88 leaves the classes without annotations out of the
    divisor and not out of the sum. *)
Theorem unweighted_mean_ap_not_mean_over_annotated :
  Exists (fun r => annotated r = true) results_A1_B1
  /\ mean_ap false results_A1_B1 = Ok (Float 2)
  /\ mean_over_annotated results_A1_B1 = Ok (Float 1)
  /\ mean_ap false results_A1_B1 <> mean_over_annotated results_A1_B1.
Proof.
  split; [apply Exists_cons_hd; reflexivity|].
  split; [by vm_compute|]. split; [by vm_compute|].
  intros H. vm_compute in H. float_discriminate H.
Qed.

(** C2: when the total annotation count is positive, the weighted mAP
    is [sum(AP_i * count_i) / sum(count_i)] over all classes; it is not a
    division by zero, and it is a [float] when the total is below
    [2^53]. *)
Theorem weighted_mean_ap_is_weighted_mean (aps : list class_result) :
  (0 < total_annotations aps)%N ->
  mean_ap true aps = weighted_mean aps
  /\ mean_ap true aps <> Raise ZeroDivisionError
  /\ ((total_annotations aps < 2 ^ 53)%N ->
      exists f, mean_ap true aps = Ok (Float f)).
Proof.
  intros Hpos. split; [apply Aggregation.mean_ap_weighted|]. split.
  - rewrite Aggregation.mean_ap_weighted. unfold weighted_mean.
    destruct (Aggregation.products_cases aps) as [[fs ->]| ->]; [|done].
    cbn [mbind result_bind bind].
    destruct (PyFacts.sum_floats_ok fs) as [s ->].
    apply PyFacts.truediv_int_nonzero. lia.
  - intros Hsmall. by apply Aggregation.weighted_returns.
Qed.

Lemma weighted_mean_ap_is_weighted_mean_witness :
  mean_ap true results_A05_B03 = weighted_mean results_A05_B03
  /\ mean_ap true results_A05_B03 <> Raise ZeroDivisionError
  /\ ((total_annotations results_A05_B03 < 2 ^ 53)%N ->
      exists f, mean_ap true results_A05_B03 = Ok (Float f)).
Proof.
  apply (weighted_mean_ap_is_weighted_mean results_A05_B03).
  reflexivity.
Defined.

(** C3 (defect of line 88): for [{A: (AP=0.8, n=10), B: (AP=0.4, n=0)}]
    the code returns the unweighted mAP [(0.8 + 0.4) / 1], the double
    [1.2000000000000002], where the claim says [0.8]: class B is left out
    of the divisor and not out of the sum.  The weighted mAP is [0.8], as
    the claim says. *)
Theorem mean_ap_A08_B04 :
  mean_ap false results_A08_B04 = Ok (Float 1.2000000000000002)
  /\ mean_ap true results_A08_B04 = Ok (Float 0.8).
Proof. split; by vm_compute. Qed.

(** C3 does not hold of the code: the unweighted mAP of that input is not
    [0.8]. *)
Lemma mean_ap_A08_B04_unweighted_not_08 :
  mean_ap false results_A08_B04 = Ok (Float 1.2000000000000002)
  /\ ~ (mean_ap false results_A08_B04 = Ok (Float 0.8)
        /\ mean_ap true results_A08_B04 = Ok (Float 0.8)).
Proof.
  split; [by vm_compute|].
  intros [H _]. vm_compute in H. float_discriminate H.
Qed.

(** C4: for [{A: (AP=0.5, n=5), B: (AP=0.3, n=5)}] the unweighted and
    the weighted mAP are both [0.4]. *)
Theorem mean_ap_A05_B03 :
  mean_ap false results_A05_B03 = Ok (Float 0.4)
  /\ mean_ap true results_A05_B03 = Ok (Float 0.4).
Proof. split; by vm_compute. Qed.

(** C6: when every class has [num_annotations = 0], the unweighted
    aggregation is a division by zero, and [on_epoch_end] raises
    [ZeroDivisionError]: [self.mean_ap] gets no default value and no
    dictionary of the caller is written. *)
Theorem on_epoch_end_unweighted_no_annotations_raises
    (evaluate : float -> float -> Z -> option string -> result evaluation)
    (label_to_name : Z -> string)
    (tensorboard_write : list tb_request -> result unit)
    (self : Evaluate) (epoch : Z) (logs : option loc) (s : state)
    (ev : evaluation) :
  weighted_average self = false ->
  evaluate (iou_threshold self) (score_threshold self)
    (max_detections self) (save_path self) = Ok ev ->
  Forall (fun r => num_annotations_of r = 0%N) (average_precisions ev) ->
  mean_ap false (average_precisions ev) = Raise ZeroDivisionError
  /\ (on_epoch_end evaluate label_to_name tensorboard_write self epoch logs s).1
     = Raise ZeroDivisionError
  /\ self_mean_ap
       (on_epoch_end evaluate label_to_name tensorboard_write self epoch logs s).2
     = self_mean_ap s
  /\ (forall l d,
        heap s !! l = Some d ->
        heap (on_epoch_end evaluate label_to_name tensorboard_write self epoch
                logs s).2 !! l = Some d).
Proof.
  intros Hw Hev Hall.
  pose proof (Aggregation.unweighted_no_annotations _ Hall) as Hm.
  split; [exact Hm|].
  apply (Effects.on_epoch_end_raises evaluate label_to_name tensorboard_write
           self epoch logs s ev ZeroDivisionError Hev).
  - intros _. eapply Forall_impl; [exact Hall|]. apply Effects.count_formats_zero.
  - by rewrite Hw.
Qed.

Lemma on_epoch_end_unweighted_no_annotations_raises_witness :
  mean_ap false results_no_annotations = Raise ZeroDivisionError
  /\ (on_epoch_end evaluate_no_annotations label_to_name_example
        tensorboard_write_example default_callback 3 None
        state_with_loss_logs).1 = Raise ZeroDivisionError
  /\ self_mean_ap
       (on_epoch_end evaluate_no_annotations label_to_name_example
          tensorboard_write_example default_callback 3 None
          state_with_loss_logs).2 = None
  /\ (forall l d,
        heap state_with_loss_logs !! l = Some d ->
        heap (on_epoch_end evaluate_no_annotations label_to_name_example
                tensorboard_write_example default_callback 3 None
                state_with_loss_logs).2 !! l = Some d).
Proof.
  apply (on_epoch_end_unweighted_no_annotations_raises evaluate_no_annotations
           label_to_name_example tensorboard_write_example default_callback 3
           None state_with_loss_logs
           {| average_precisions := results_no_annotations; time := 1.5;
              recall := []; precision := [] |}).
  - reflexivity.
  - reflexivity.
  - repeat constructor.
Defined.

(** C7: the divisor of the unweighted aggregation is the number of
    classes with [num_annotations > 0]; a class with zero annotations,
    wherever it stands, adds nothing to it. *)
Theorem unweighted_denominator_counts_annotated (aps : list class_result) :
  unweighted_denominator (per_class_lists aps).1 =
    Ok (Int (Z.of_nat (length (filter (fun r => annotated r = true) aps))))
  /\ mean_ap false aps =
       (numerator ← sum (Float <$> (per_class_lists aps).2);
        truediv numerator
          (Int (Z.of_nat (length (filter (fun r => annotated r = true) aps)))))
  /\ (forall (label : Z) (ap : float) (aps' : list class_result),
        unweighted_denominator
          (per_class_lists (aps ++ (label, (ap, 0%N)) :: aps')).1 =
        unweighted_denominator (per_class_lists (aps ++ aps')).1).
Proof.
  rewrite Aggregation.per_class_lists_eq. cbn [fst snd].
  split; [apply Aggregation.unweighted_denominator_count|].
  split; [apply Aggregation.mean_ap_unweighted|].
  intros label ap aps'. rewrite !Aggregation.per_class_lists_eq. cbn [fst snd].
  rewrite !Aggregation.unweighted_denominator_count, !filter_app.
  by rewrite filter_cons_False.
Qed.

(** C8: when the total annotation count is zero (the empty mapping
    included), the weighted aggregation is a division by zero too, and
    [on_epoch_end] raises [ZeroDivisionError] in the same way. *)
Theorem on_epoch_end_weighted_no_annotations_raises
    (evaluate : float -> float -> Z -> option string -> result evaluation)
    (label_to_name : Z -> string)
    (tensorboard_write : list tb_request -> result unit)
    (self : Evaluate) (epoch : Z) (logs : option loc) (s : state)
    (ev : evaluation) :
  weighted_average self = true ->
  evaluate (iou_threshold self) (score_threshold self)
    (max_detections self) (save_path self) = Ok ev ->
  total_annotations (average_precisions ev) = 0%N ->
  mean_ap true (average_precisions ev) = Raise ZeroDivisionError
  /\ (on_epoch_end evaluate label_to_name tensorboard_write self epoch logs s).1
     = Raise ZeroDivisionError
  /\ self_mean_ap
       (on_epoch_end evaluate label_to_name tensorboard_write self epoch logs s).2
     = self_mean_ap s
  /\ (forall l d,
        heap s !! l = Some d ->
        heap (on_epoch_end evaluate label_to_name tensorboard_write self epoch
                logs s).2 !! l = Some d).
Proof.
  intros Hw Hev Htot.
  pose proof (Aggregation.weighted_no_annotations _ Htot) as Hm.
  split; [exact Hm|].
  apply (Effects.on_epoch_end_raises evaluate label_to_name tensorboard_write
           self epoch logs s ev ZeroDivisionError Hev).
  - intros _. eapply Forall_impl; [exact (Aggregation.total_annotations_0 _ Htot)|].
    apply Effects.count_formats_zero.
  - by rewrite Hw.
Qed.

Lemma on_epoch_end_weighted_no_annotations_raises_witness :
  mean_ap true results_no_annotations = Raise ZeroDivisionError
  /\ (on_epoch_end evaluate_no_annotations label_to_name_example
        tensorboard_write_example weighted_callback 3 None
        state_with_loss_logs).1 = Raise ZeroDivisionError
  /\ self_mean_ap
       (on_epoch_end evaluate_no_annotations label_to_name_example
          tensorboard_write_example weighted_callback 3 None
          state_with_loss_logs).2 = None
  /\ (forall l d,
        heap state_with_loss_logs !! l = Some d ->
        heap (on_epoch_end evaluate_no_annotations label_to_name_example
                tensorboard_write_example weighted_callback 3 None
                state_with_loss_logs).2 !! l = Some d).
Proof.
  apply (on_epoch_end_weighted_no_annotations_raises evaluate_no_annotations
           label_to_name_example tensorboard_write_example weighted_callback 3
           None state_with_loss_logs
           {| average_precisions := results_no_annotations; time := 1.5;
              recall := []; precision := [] |}).
  - reflexivity.
  - reflexivity.
  - reflexivity.
Defined.

(** ** The properties of [decreasing_max_precision] *)

(** C9 (as amended): for every precision sequence that contains no NaN,
    [decreasing_max_precision] is non-increasing from left to right
    ([d[i+1] <= d[i]]) and pointwise greater than or equal to the
    sequence ([precision[i] <= d[i]]).  For every precision sequence, NaN
    or not, it has the length of the sequence, no entry is less than its
    right neighbour and no entry is less than the precision at its
    position. *)
Theorem decreasing_max_precision_envelope (precision : list float) :
  length (decreasing_max_precision precision) = length precision
  /\ (forall i x y,
        decreasing_max_precision precision !! i = Some x ->
        decreasing_max_precision precision !! S i = Some y ->
        (x <? y)%float = false)
  /\ (forall i x y,
        precision !! i = Some x ->
        decreasing_max_precision precision !! i = Some y ->
        (y <? x)%float = false)
  /\ (Forall (fun x => is_nan x = false) precision ->
      (forall i x y,
         decreasing_max_precision precision !! i = Some x ->
         decreasing_max_precision precision !! S i = Some y ->
         (y <=? x)%float = true)
      /\ (forall i x y,
            precision !! i = Some x ->
            decreasing_max_precision precision !! i = Some y ->
            (x <=? y)%float = true)).
Proof.
  split; [apply Maximum.decreasing_max_precision_length|].
  assert (Hall : Forall (fun _ : float => True) precision) by by apply Forall_true.
  split; [|split].
  - apply (Maximum.decreasing_max_precision_chain (fun _ => True)
             (fun x y => (y <? x)%float = false)); auto.
    intros a b _ _. apply Maximum.np_maximum_not_below_l.
  - apply (Maximum.decreasing_max_precision_above (fun _ => True)
             (fun x y => (y <? x)%float = false)); auto.
    + intros a _. apply FloatFacts.ltb_irrefl.
    + intros a b _ _. apply Maximum.np_maximum_not_below_r.
  - intros Hnum. split.
    + apply (Maximum.decreasing_max_precision_chain (fun x => is_nan x = false)
               (fun x y => (x <=? y)%float = true));
        auto using Maximum.np_maximum_number, Maximum.np_maximum_ge_l.
    + apply (Maximum.decreasing_max_precision_above (fun x => is_nan x = false)
               (fun x y => (x <=? y)%float = true));
        auto using Maximum.np_maximum_number, Maximum.np_maximum_ge_r,
          FloatFacts.leb_refl.
Qed.

Lemma decreasing_max_precision_envelope_witness :
  decreasing_max_precision precision_example = [1; 1; 0.75; 0.6]%float
  /\ (forall i x y,
        decreasing_max_precision precision_example !! i = Some x ->
        decreasing_max_precision precision_example !! S i = Some y ->
        (y <=? x)%float = true)
  /\ (forall i x y,
        precision_example !! i = Some x ->
        decreasing_max_precision precision_example !! i = Some y ->
        (x <=? y)%float = true).
Proof.
  split; [reflexivity|].
  apply (decreasing_max_precision_envelope precision_example).
  repeat constructor.
Defined.

(** C9 does not hold of every precision sequence: for [[0.5; nan; 0.75]]
    line 74 gives [[nan; nan; 0.75]], where [d[2] <= d[1]] and
    [precision[0] <= d[0]] are both false. *)
Lemma decreasing_max_precision_nan_not_ordered :
  decreasing_max_precision precision_with_nan = [nan; nan; 0.75]%float
  /\ (exists i x y,
        decreasing_max_precision precision_with_nan !! i = Some x
        /\ decreasing_max_precision precision_with_nan !! S i = Some y
        /\ (y <=? x)%float = false)
  /\ (exists i x y,
        precision_with_nan !! i = Some x
        /\ decreasing_max_precision precision_with_nan !! i = Some y
        /\ (x <=? y)%float = false).
Proof.
  split; [by vm_compute|]. split.
  - exists 1%nat, nan, 0.75%float. by vm_compute.
  - exists 0%nat, 0.5%float, nan. by vm_compute.
Qed.

(** ** The properties of the epoch log *)




(** C10: when [logs] is [None] or an empty mapping, [on_epoch_end] works
    on a dictionary of its own at a location the caller does not have:
    whether it returns or raises, every dictionary of the caller (the
    empty one passed in among them) is as before, without ["mAP"]; the
    new dictionary is the one that receives ["mAP"]. *)
Theorem on_epoch_end_falsy_logs_not_mutated
    (evaluate : float -> float -> Z -> option string -> result evaluation)
    (label_to_name : Z -> string)
    (tensorboard_write : list tb_request -> result unit)
    (self : Evaluate) (epoch : Z) (logs : option loc) (s : state) :
  logs = None \/ (exists l, logs = Some l /\ heap s !! l = Some ∅) ->
  (forall l d,
     heap s !! l = Some d ->
     heap (on_epoch_end evaluate label_to_name tensorboard_write self epoch
             logs s).2 !! l = Some d)
  /\ exists l' : loc,
      heap s !! l' = None
      /\ (forall e,
            (on_epoch_end evaluate label_to_name tensorboard_write self epoch
               logs s).1 = Raise e ->
            heap (on_epoch_end evaluate label_to_name tensorboard_write self
                    epoch logs s).2 !! l' = Some ∅)
      /\ ((on_epoch_end evaluate label_to_name tensorboard_write self epoch
             logs s).1 = Ok tt ->
          exists m,
            self_mean_ap (on_epoch_end evaluate label_to_name tensorboard_write
                            self epoch logs s).2 = Some m
            /\ heap (on_epoch_end evaluate label_to_name tensorboard_write
                       self epoch logs s).2 !! l' = Some {[ "mAP" := m ]}).
Proof.
  intros Hlogs. unfold on_epoch_end, mbind, M_bind.
  rewrite (Effects.logs_or_new_fresh logs s Hlogs).
  set (l' := fresh (dom (heap s))).
  set (s1 := set_heap _ s).
  assert (Hfresh : heap s !! l' = None).
  { apply not_elem_of_dom, is_fresh. }
  assert (Hs1 : heap s1 = <[l' := ∅]> (heap s)) by done.
  assert (Hne : forall l d, heap s !! l = Some d -> l' <> l).
  { intros l d Hl ->. congruence. }
  destruct (Effects.evaluate_and_log_cases evaluate label_to_name
              tensorboard_write self epoch l' s1)
    as [(e & He & Hheap)|(ev & m & _ & _ & Hok & Hmap & Hheap)];
    rewrite Hheap, Hs1.
  - split.
    + intros l d Hl. rewrite lookup_insert_ne by by eapply Hne. done.
    + exists l'. split; [done|]. split.
      * intros _ _. apply lookup_insert_eq.
      * intros Hr. congruence.
  - unfold deref. rewrite lookup_insert_eq. cbn [default from_option id].
    rewrite insert_insert_eq, insert_empty.
    split.
    + intros l d Hl. rewrite lookup_insert_ne by by eapply Hne. done.
    + exists l'. split; [done|]. split.
      * intros e He. congruence.
      * intros _. exists m. split; [done|]. apply lookup_insert_eq.
Qed.

Lemma on_epoch_end_falsy_logs_not_mutated_witness :
  heap state_with_empty_logs !! 0%nat = Some ∅
  /\ (forall l d,
        heap state_with_empty_logs !! l = Some d ->
        heap run_with_empty_logs.2 !! l = Some d).
Proof.
  split; [apply lookup_singleton_eq|].
  apply (on_epoch_end_falsy_logs_not_mutated evaluate_example
           label_to_name_example tensorboard_write_example default_callback
           3 (Some 0%nat) state_with_empty_logs).
  right. exists 0%nat. split; [reflexivity|apply lookup_singleton_eq].
Defined.


(** * Further properties

    What the function does besides: how it fails, what it prints, what it
    leaves alone, and what line 74 computes. *)

(** ** More facts about the order and the special values of binary64 *)

Module FloatOrder.

Lemma SFleb_trans (x y z : spec_float) :
  SFleb x y = true -> SFleb y z = true -> SFleb x z = true.
Proof.
  unfold SFleb.
  destruct x as [sx|sx| |sx mx ex], y as [sy|sy| |sy my ey],
           z as [sz|sz| |sz mz ez]; simpl; try discriminate; try done;
    try (destruct sx; try destruct sy; try destruct sz; simpl; done).
  destruct sx, sy, sz; simpl; try discriminate; try done.
  all: change (Pos.compare_cont Eq mx my) with (mx ?= my)%positive;
       change (Pos.compare_cont Eq my mz) with (my ?= mz)%positive;
       change (Pos.compare_cont Eq mx mz) with (mx ?= mz)%positive;
       destruct (Z.compare_spec ex ey), (Z.compare_spec ey ez),
                (Z.compare_spec ex ez); simpl; try discriminate; try done;
         try lia;
       destruct (Pos.compare_spec mx my), (Pos.compare_spec my mz),
                (Pos.compare_spec mx mz); simpl; try discriminate; try done;
         try lia.
Qed.

Lemma leb_trans (x y z : float) :
  (x <=? y)%float = true -> (y <=? z)%float = true -> (x <=? z)%float = true.
Proof. rewrite !leb_spec. apply SFleb_trans. Qed.

Lemma leb_nan_l (x y : float) : is_nan x = true -> (x <=? y)%float = false.
Proof.
  intros Hx%FloatFacts.is_nan_true. rewrite leb_spec. unfold SFleb. by rewrite Hx.
Qed.

End FloatOrder.

(** ** More facts about the aggregation *)

Module Special.

Lemma is_nan_spec (x : float) : is_nan x = true <-> Prim2SF x = S754_nan.
Proof.
  split; [apply FloatFacts.is_nan_true|].
  intros Hx. unfold is_nan. rewrite eqb_spec, Hx. reflexivity.
Qed.

Lemma is_infinity_false (x : float) (s : bool) :
  is_infinity x = false -> Prim2SF x <> S754_infinity s.
Proof.
  unfold is_infinity. rewrite eqb_spec, abs_spec. intros H Hx.
  rewrite Hx in H. discriminate H.
Qed.

(** A finite double times zero is a zero. *)
Lemma mul_zero_r (a : float) :
  is_nan a = false -> is_infinity a = false ->
  exists s, Prim2SF (a * 0)%float = S754_zero s.
Proof.
  intros Hnan%FloatFacts.is_nan_false Hinf. rewrite mul_spec.
  change (Prim2SF 0) with (S754_zero false). unfold SF64mul.
  destruct (Prim2SF a) as [s|s| |s m e] eqn:Ha; cbn; eauto.
  - by apply (is_infinity_false a s) in Hinf.
  - done.
Qed.

Lemma add_nan_l (a b : float) : is_nan a = true -> is_nan (a + b) = true.
Proof.
  rewrite !is_nan_spec, add_spec. intros ->. reflexivity.
Qed.

Lemma add_nan_r (a b : float) : is_nan b = true -> is_nan (a + b) = true.
Proof.
  rewrite !is_nan_spec, add_spec. intros ->. unfold SF64add.
  by destruct (Prim2SF a).
Qed.

Lemma mul_nan_l (a b : float) : is_nan a = true -> is_nan (a * b) = true.
Proof.
  rewrite !is_nan_spec, mul_spec. intros ->. reflexivity.
Qed.

Lemma div_nan_l (a b : float) : is_nan a = true -> is_nan (a / b) = true.
Proof.
  rewrite !is_nan_spec, div_spec. intros ->. reflexivity.
Qed.

Lemma fold_add_nan_acc (l : list float) : forall acc,
  is_nan acc = true -> is_nan (fold_left PrimFloat.add l acc) = true.
Proof.
  induction l as [|x l IH]; intros acc Hacc; [done|].
  cbn. by apply IH, add_nan_l.
Qed.

Lemma fold_add_nan (l : list float) : forall acc,
  Exists (fun x => is_nan x = true) l ->
  is_nan (fold_left PrimFloat.add l acc) = true.
Proof.
  induction l as [|x l IH]; intros acc Hex; [by apply Exists_nil in Hex|].
  cbn. apply Exists_cons in Hex as [Hx|Hex].
  - by apply fold_add_nan_acc, add_nan_r.
  - by apply IH.
Qed.

Lemma truediv_nan (a : float) (c : Z) :
  is_nan a = true -> c <> 0%Z -> (0 <= c < 2 ^ 53)%Z ->
  exists f, truediv (Float a) (Int c) = Ok (Float f) /\ is_nan f = true.
Proof.
  intros Ha Hc Hsmall. cbn [truediv to_float].
  destruct (PyFacts.float_of_int_small c Hsmall) as [b ->]. cbn.
  destruct (Z.eqb_spec c 0); [done|].
  eexists. split; [reflexivity|]. by apply div_nan_l.
Qed.

Lemma unannotated_count (r : class_result) :
  annotated r = false -> num_annotations_of r = 0%N.
Proof. unfold annotated. intros H%N.ltb_ge. lia. Qed.

Lemma total_annotations_filter (aps : list class_result) :
  total_annotations (filter (fun r => annotated r = true) aps)
  = total_annotations aps.
Proof.
  unfold total_annotations.
  induction aps as [|r aps IH]; [done|].
  destruct (annotated r) eqn:Har.
  - rewrite filter_cons_True by done. rewrite !fmap_cons. cbn [foldr].
    by rewrite IH.
  - rewrite filter_cons_False by congruence. rewrite fmap_cons. cbn [foldr].
    rewrite IH, (unannotated_count r Har). lia.
Qed.

(** The products of the annotated classes alone raise when the products
    of all classes do, and otherwise add up to the same partial sums. *)
Lemma products_filter (aps : list class_result) :
  Forall (fun r => annotated r = false ->
                   is_nan (average_precision_of r) = false
                   /\ is_infinity (average_precision_of r) = false) aps ->
  let f := fun r => mul (Float (average_precision_of r))
                      (int_of_count (num_annotations_of r)) in
  (mapM f aps = Raise OverflowError
   /\ mapM f (filter (fun r => annotated r = true) aps) = Raise OverflowError)
  \/ (exists ps qs : list float,
        mapM f aps = Ok (Float <$> ps)
        /\ mapM f (filter (fun r => annotated r = true) aps) = Ok (Float <$> qs)
        /\ (forall acc, Prim2SF acc <> S754_zero true ->
                        fold_left PrimFloat.add ps acc = fold_left PrimFloat.add qs acc)
        /\ (qs = [] -> total_annotations aps = 0%N)
        /\ (ps = [] -> qs = [])).
Proof.
  intros Hfin f. induction Hfin as [|r aps Hr _ IH].
  { right. exists [], []. by repeat split. }
  destruct (annotated r) eqn:Har.
  - rewrite filter_cons_True by done. cbn [mapM].
    destruct (PyFacts.mul_float_int_cases (average_precision_of r)
                (Z.of_N (num_annotations_of r))) as [[b Hb]|Hb];
      fold (int_of_count (num_annotations_of r)) in Hb; fold (f r) in Hb;
      rewrite Hb; [|by left].
    destruct IH as [[-> ->]|(ps & qs & -> & -> & Hfold & _)]; [left; split; reflexivity|].
    right. exists (b :: ps), (b :: qs).
    split; [done|]. split; [done|]. split; [|done].
    intros acc Hacc. cbn. by apply Hfold, FloatFacts.add_not_neg_zero.
  - rewrite filter_cons_False by congruence. cbn [mapM].
    destruct (Hr eq_refl) as [Hnan Hinf].
    assert (Hfr : f r = Ok (Float (average_precision_of r * 0)%float)).
    { unfold f. by rewrite (unannotated_count r Har). }
    rewrite Hfr.
    destruct IH as [[-> Hq]|(ps & qs & -> & Hq & Hfold & Hempty & _)];
      [left; split; [reflexivity|exact Hq]|].
    right. exists ((average_precision_of r * 0)%float :: ps), qs.
    split; [done|]. split; [done|]. split; [|split; [|done]].
    + intros acc Hacc. cbn.
      destruct (mul_zero_r _ Hnan Hinf) as [s Hs].
      rewrite (FloatFacts.add_zero_r acc _ s Hacc Hs). by apply Hfold.
    + intros Hqs. unfold total_annotations in *. rewrite fmap_cons. cbn [foldr].
      rewrite (Hempty Hqs), (unannotated_count r Har). done.
Qed.

Lemma products_nan (aps : list class_result) :
  Forall (fun r => (Z.of_N (num_annotations_of r) < 2 ^ 53)%Z) aps ->
  Exists (fun r => is_nan (average_precision_of r) = true) aps ->
  exists fs : list float,
    mapM (fun r => mul (Float (average_precision_of r))
                     (int_of_count (num_annotations_of r))) aps
    = Ok (Float <$> fs)
    /\ Exists (fun x => is_nan x = true) fs.
Proof.
  set (f := fun r => mul _ _).
  induction 1 as [|r aps Hr Hsm IH]; intros Hnan.
  { by apply Exists_nil in Hnan. }
  destruct (PyFacts.float_of_int_small (Z.of_N (num_annotations_of r)))
    as [b Hb]; [lia|].
  assert (Hfr : f r = Ok (Float (average_precision_of r * b)%float)).
  { unfold f, int_of_count. cbn [mul to_float]. by rewrite Hb. }
  cbn [mapM]. rewrite Hfr.
  apply Exists_cons in Hnan as [Hx|Hnan].
  - destruct (Aggregation.products_of_small_counts aps Hsm) as (fs & Hfs & _).
    fold f in Hfs. rewrite Hfs.
    exists ((average_precision_of r * b)%float :: fs). split; [done|].
    apply Exists_cons_hd. by apply mul_nan_l.
  - destruct (IH Hnan) as (fs & -> & Hfs).
    exists ((average_precision_of r * b)%float :: fs). split; [done|].
    by apply Exists_cons_tl.
Qed.

End Special.

(** ** More facts about the running maximum *)

Module Suffix.

Lemma np_maximum_cases (a b : float) : np_maximum a b = a \/ np_maximum a b = b.
Proof. unfold np_maximum. destruct (_ || _); auto. Qed.

Lemma np_maximum_absorb (a b : float) :
  np_maximum a (np_maximum a b) = np_maximum a b.
Proof.
  destruct (np_maximum_cases a b) as [H|H]; rewrite H; [|exact H].
  unfold np_maximum. by destruct (_ || _).
Qed.

Lemma accumulate_from_idem (a : list float) : forall acc,
  accumulate_from acc (accumulate_from acc a) = accumulate_from acc a.
Proof.
  induction a as [|x a IH]; intros acc; [done|].
  cbn [accumulate_from]. rewrite np_maximum_absorb. f_equal. apply IH.
Qed.

Lemma np_maximum_accumulate_idem (a : list float) :
  np_maximum_accumulate (np_maximum_accumulate a) = np_maximum_accumulate a.
Proof.
  destruct a as [|x a]; [done|]. cbn [np_maximum_accumulate].
  f_equal. apply accumulate_from_idem.
Qed.

Lemma accumulate_from_attained (a : list float) : forall acc k y,
  accumulate_from acc a !! k = Some y ->
  y = acc \/ exists k', (k' <= k)%nat /\ a !! k' = Some y.
Proof.
  induction a as [|x a IH]; intros acc k y Hy; [discriminate Hy|].
  cbn [accumulate_from] in Hy. destruct k as [|k].
  - injection Hy as <-.
    destruct (np_maximum_cases acc x) as [->| ->]; [by left|].
    right. exists 0%nat. by split.
  - destruct (IH _ _ _ Hy) as [->|(k' & Hk' & Hx)].
    + destruct (np_maximum_cases acc x) as [->| ->]; [by left|].
      right. exists 0%nat. split; [lia|done].
    + right. exists (S k'). split; [lia|done].
Qed.

Lemma np_maximum_accumulate_attained (a : list float) (k : nat) (y : float) :
  np_maximum_accumulate a !! k = Some y ->
  exists k', (k' <= k)%nat /\ a !! k' = Some y.
Proof.
  destruct a as [|x a]; intros Hy; [discriminate Hy|].
  destruct k as [|k]; [exists 0%nat; by split|].
  destruct (accumulate_from_attained a x k y Hy) as [->|(k' & Hk' & Hx)].
  - exists 0%nat. split; [lia|done].
  - exists (S k'). split; [lia|done].
Qed.

Lemma accumulate_from_dominates (a : list float) : forall acc,
  is_nan acc = false -> Forall (fun x => is_nan x = false) a ->
  forall k y,
    accumulate_from acc a !! k = Some y ->
    (acc <=? y)%float = true
    /\ forall k' x, (k' <= k)%nat -> a !! k' = Some x -> (x <=? y)%float = true.
Proof.
  induction a as [|x0 a IH]; intros acc Hacc Ha k y Hy; [discriminate Hy|].
  inversion Ha as [|? ? Hx0 Ha']; subst.
  pose proof (Maximum.np_maximum_ge_l acc x0 Hacc Hx0) as Hl.
  pose proof (Maximum.np_maximum_ge_r acc x0 Hacc Hx0) as Hr.
  cbn [accumulate_from] in Hy. destruct k as [|k].
  - injection Hy as <-. split; [done|].
    intros k' x Hk' Hx. assert (k' = 0)%nat as -> by lia.
    injection Hx as <-. done.
  - destruct (IH _ (Maximum.np_maximum_number _ _ Hacc Hx0) Ha' _ _ Hy)
      as [Hm Hrest].
    split; [by eapply FloatOrder.leb_trans|].
    intros [|k'] x Hk' Hx.
    + injection Hx as <-. by eapply FloatOrder.leb_trans.
    + apply (Hrest k'); [lia|done].
Qed.

Lemma np_maximum_accumulate_dominates (a : list float) :
  Forall (fun x => is_nan x = false) a ->
  forall k y k' x,
    np_maximum_accumulate a !! k = Some y ->
    (k' <= k)%nat -> a !! k' = Some x -> (x <=? y)%float = true.
Proof.
  destruct a as [|x0 a]; intros Ha k y k' x Hy Hk' Hx; [discriminate Hy|].
  inversion Ha as [|? ? Hx0 Ha']; subst.
  destruct k as [|k].
  - assert (k' = 0)%nat as -> by lia.
    injection Hy as <-. injection Hx as <-. by apply FloatFacts.leb_refl.
  - destruct (accumulate_from_dominates a x0 Hx0 Ha' k y Hy) as [H0 Hrest].
    destruct k' as [|k']; [by injection Hx as <-|].
    apply (Hrest k'); [lia|done].
Qed.

Lemma np_maximum_nan_l (a b : float) : is_nan a = true -> np_maximum a b = a.
Proof. intros Ha. unfold np_maximum. by rewrite Ha, orb_true_r. Qed.

Lemma np_maximum_nan_r (a b : float) :
  is_nan b = true -> is_nan (np_maximum a b) = true.
Proof.
  intros Hb. unfold np_maximum. rewrite (FloatOrder.leb_nan_l b a Hb).
  cbn. by destruct (is_nan a) eqn:Ha.
Qed.

Lemma accumulate_from_nan_acc (a : list float) : forall acc,
  is_nan acc = true ->
  forall k y, accumulate_from acc a !! k = Some y -> is_nan y = true.
Proof.
  induction a as [|x a IH]; intros acc Hacc k y Hy; [discriminate Hy|].
  cbn [accumulate_from] in Hy. rewrite np_maximum_nan_l in Hy by done.
  destruct k as [|k]; [by injection Hy as <-|]. by apply (IH acc Hacc k).
Qed.

Lemma accumulate_from_nan (a : list float) : forall acc k' x,
  a !! k' = Some x -> is_nan x = true ->
  forall k y, (k' <= k)%nat -> accumulate_from acc a !! k = Some y ->
              is_nan y = true.
Proof.
  induction a as [|x0 a IH]; intros acc k' x Hx Hnan k y Hk Hy;
    [discriminate Hx|].
  cbn [accumulate_from] in Hy. destruct k' as [|k'].
  - injection Hx as ->.
    pose proof (np_maximum_nan_r acc x Hnan) as Hm.
    destruct k as [|k]; [by injection Hy as <-|].
    by apply (accumulate_from_nan_acc a _ Hm k).
  - destruct k as [|k]; [lia|].
    apply (IH (np_maximum acc x0) k' x Hx Hnan k y); [lia|done].
Qed.

Lemma np_maximum_accumulate_nan (a : list float) (k' : nat) (x : float) :
  a !! k' = Some x -> is_nan x = true ->
  forall k y, (k' <= k)%nat -> np_maximum_accumulate a !! k = Some y ->
              is_nan y = true.
Proof.
  destruct a as [|x0 a]; intros Hx Hnan k y Hk Hy; [discriminate Hx|].
  destruct k' as [|k'].
  - injection Hx as ->.
    destruct k as [|k]; [by injection Hy as <-|].
    by apply (accumulate_from_nan_acc a x Hnan k).
  - destruct k as [|k]; [lia|].
    apply (accumulate_from_nan a x0 k' x Hx Hnan k y); [lia|done].
Qed.

(** Index [i] of a reversed list of length [n] is index [n - 1 - i]. *)
Lemma lookup_reverse_of (A : Type) (l : list A) (j : nat) (x : A) :
  l !! j = Some x -> reverse l !! (length l - S j)%nat = Some x.
Proof.
  intros Hx. pose proof (lookup_lt_Some _ _ _ Hx) as Hlt.
  apply reverse_lookup_Some. split; [|lia].
  rewrite <- Hx. f_equal. lia.
Qed.

End Suffix.

(** ** The outcome of [on_epoch_end], case by case *)

Module Outcome.

Section Run.

Variable evaluate : float -> float -> Z -> option string -> result evaluation.
Variable label_to_name : Z -> string.
Variable tensorboard_write : list tb_request -> result unit.

(** Line 62 returns a location and changes nothing but, at most, the heap,
    where every dictionary that was there stays as it is. *)
Lemma logs_or_new_state (logs : option loc) (s : state) :
  exists l h1,
    logs_or_new logs s = (Ok l, set_heap h1 s)
    /\ (forall l' d, heap s !! l' = Some d -> h1 !! l' = Some d)
    /\ (forall d, logs = Some l -> heap s !! l = Some d -> h1 !! l = Some d).
Proof.
  assert (Hnew : exists l h1,
            new_dict s = (Ok l, set_heap h1 s)
            /\ (forall l' d, heap s !! l' = Some d -> h1 !! l' = Some d)
            /\ (forall d, logs = Some l -> heap s !! l = Some d -> h1 !! l = Some d)).
  { eexists _, _. split; [reflexivity|].
    assert (Hf : forall l' d, heap s !! l' = Some d ->
                   <[fresh (dom (heap s)) := ∅]> (heap s) !! l' = Some d).
    { intros l' d Hl'. rewrite lookup_insert_ne; [done|].
      intros <-. apply (is_fresh (dom (heap s))), elem_of_dom. by eexists. }
    split; [exact Hf|]. intros d _. apply Hf. }
  destruct logs as [l|]; [|exact Hnew].
  unfold logs_or_new, gets, mbind, M_bind.
  destruct (decide (deref (heap s) l = ∅)); [exact Hnew|].
  exists l, (heap s). split; [by destruct s|]. by split.
Qed.

End Run.

End Outcome.

Lemma default_callback_init :
  __init__ None None None None None None None = default_callback.
Proof. reflexivity. Qed.

(** ** How [on_epoch_end] fails and what it changes *)

Section Outcomes.

Variable evaluate : float -> float -> Z -> option string -> result evaluation.
Variable label_to_name : Z -> string.
Variable tensorboard_write : list tb_request -> result unit.

Local Abbreviation run := (on_epoch_end evaluate label_to_name tensorboard_write).

(** X1: when [evaluate] raises, [on_epoch_end] raises the same exception
    and has done nothing else: nothing is printed, [self.recall],
    [self.precision] and [self.mean_ap] keep their values and every
    dictionary of the caller is as before. *)
Theorem on_epoch_end_evaluate_raises
    (self : Evaluate) (epoch : Z) (logs : option loc) (s : state) (e : exn) :
  evaluate (iou_threshold self) (score_threshold self)
    (max_detections self) (save_path self) = Raise e ->
  (run self epoch logs s).1 = Raise e
  /\ stdout (run self epoch logs s).2 = stdout s
  /\ self_recall (run self epoch logs s).2 = self_recall s
  /\ self_precision (run self epoch logs s).2 = self_precision s
  /\ self_mean_ap (run self epoch logs s).2 = self_mean_ap s
  /\ (forall l d, heap s !! l = Some d ->
                  heap (run self epoch logs s).2 !! l = Some d).
Proof.
  intros Hev. unfold on_epoch_end, mbind, M_bind.
  destruct (Outcome.logs_or_new_state logs s) as (l1 & h1 & -> & Hframe & _).
  rewrite (Effects.evaluate_and_log_evaluate_raises evaluate label_to_name
             tensorboard_write self epoch l1 _ e Hev).
  cbn. by repeat split.
Qed.

(** X2: when the aggregation raises and the per-class lines can be
    formatted, [on_epoch_end] raises the same exception half-way:
    [self.recall] and [self.precision] already hold the new evaluation
    and the per-class lines are printed (with [verbose == 1]), while
    [self.mean_ap] keeps its old value. *)
Theorem on_epoch_end_aggregation_raises_state
    (self : Evaluate) (epoch : Z) (logs : option loc) (s : state)
    (ev : evaluation) (e : exn) :
  evaluate (iou_threshold self) (score_threshold self)
    (max_detections self) (save_path self) = Ok ev ->
  (verbose self = 1%Z -> Forall count_formats (average_precisions ev)) ->
  mean_ap (weighted_average self) (average_precisions ev) = Raise e ->
  (run self epoch logs s).1 = Raise e
  /\ self_recall (run self epoch logs s).2 = Some (recall ev)
  /\ self_precision (run self epoch logs s).2 = Some (precision ev)
  /\ self_mean_ap (run self epoch logs s).2 = self_mean_ap s
  /\ stdout (run self epoch logs s).2 =
     stdout s ++ (if (verbose self =? 1)%Z
                  then class_lines label_to_name (average_precisions ev)
                  else []).
Proof.
  intros Hev Hfmt Hm. unfold on_epoch_end, mbind, M_bind.
  destruct (Outcome.logs_or_new_state logs s) as (l1 & h1 & -> & Hframe & _).
  rewrite (Effects.evaluate_and_log_run evaluate label_to_name
             tensorboard_write self epoch l1 _ ev Hev Hfmt).
  cbn zeta. rewrite Hm. cbn. by repeat split.
Qed.

(** X3: when the per-class lines can be formatted and the TensorBoard
    branch raises, [on_epoch_end] raises the same exception after
    [self.mean_ap] was assigned and before line 124:
    no dictionary of the caller receives ["mAP"], and the ["mAP: ..."]
    line is not printed. *)
Theorem on_epoch_end_tensorboard_raises
    (self : Evaluate) (epoch : Z) (logs : option loc) (s : state)
    (ev : evaluation) (m : num) (log_dir : string) (e : exn) :
  evaluate (iou_threshold self) (score_threshold self)
    (max_detections self) (save_path self) = Ok ev ->
  (verbose self = 1%Z -> Forall count_formats (average_precisions ev)) ->
  mean_ap (weighted_average self) (average_precisions ev) = Ok m ->
  tensorboard self = Some log_dir ->
  tensorboard_write
    (tensorboard_requests label_to_name self log_dir epoch
       (average_precisions ev) m (recall ev)
       (decreasing_max_precision (precision ev))) = Raise e ->
  (run self epoch logs s).1 = Raise e
  /\ self_mean_ap (run self epoch logs s).2 = Some m
  /\ (forall l d, heap s !! l = Some d ->
                  heap (run self epoch logs s).2 !! l = Some d)
  /\ stdout (run self epoch logs s).2 =
     stdout s ++ (if (verbose self =? 1)%Z
                  then class_lines label_to_name (average_precisions ev)
                  else []).
Proof.
  intros Hev Hfmt Hm Htb Hw. unfold on_epoch_end, mbind, M_bind.
  destruct (Outcome.logs_or_new_state logs s) as (l1 & h1 & -> & Hframe & _).
  rewrite (Effects.evaluate_and_log_run evaluate label_to_name
             tensorboard_write self epoch l1 _ ev Hev Hfmt).
  cbn zeta. rewrite Hm, Htb, Hw. cbn. by repeat split.
Qed.


(** X5: [on_epoch_end] returns exactly when [evaluate] returns, with
    [verbose == 1] every annotation count can be formatted as a float,
    the aggregation of the per-class results returns, and the TensorBoard
    branch is off or its writes return. *)
Theorem on_epoch_end_returns_iff
    (self : Evaluate) (epoch : Z) (logs : option loc) (s : state) :
  (run self epoch logs s).1 = Ok tt
  <-> exists ev m,
        evaluate (iou_threshold self) (score_threshold self)
          (max_detections self) (save_path self) = Ok ev
        /\ (verbose self = 1%Z -> Forall count_formats (average_precisions ev))
        /\ mean_ap (weighted_average self) (average_precisions ev) = Ok m
        /\ match tensorboard self with
           | Some log_dir =>
               tensorboard_write
                 (tensorboard_requests label_to_name self log_dir epoch
                    (average_precisions ev) m (recall ev)
                    (decreasing_max_precision (precision ev))) = Ok tt
           | None => True
           end.
Proof.
  unfold on_epoch_end, mbind, M_bind.
  destruct (Outcome.logs_or_new_state logs s) as (l1 & h1 & -> & Hframe & _).
  split.
  - destruct (evaluate (iou_threshold self) (score_threshold self)
                (max_detections self) (save_path self)) as [ev|e] eqn:Hev.
    2: { by rewrite (Effects.evaluate_and_log_evaluate_raises evaluate
                       label_to_name tensorboard_write self epoch l1 _ e Hev). }
    assert (Hfmt : verbose self = 1%Z ->
                   Forall count_formats (average_precisions ev)
                   \/ (evaluate_and_log evaluate label_to_name tensorboard_write
                         self epoch l1 (set_heap h1 s)).1 = Raise OverflowError).
    { intros Hv.
      destruct (Effects.formats_or_fails (average_precisions ev))
        as [Hall|(pre & r & post & Hsplit & Hpre & Hr)]; [by left|].
      right.
      by rewrite (Effects.evaluate_and_log_format_raises evaluate label_to_name
                    tensorboard_write self epoch l1 _ ev pre r post
                    Hev Hv Hsplit Hpre Hr). }
    intros Hr.
    assert (Hfmt' : verbose self = 1%Z ->
                    Forall count_formats (average_precisions ev)).
    { intros Hv. destruct (Hfmt Hv) as [Hall|Hraise]; [done|congruence]. }
    revert Hr.
    rewrite (Effects.evaluate_and_log_run evaluate label_to_name
               tensorboard_write self epoch l1 _ ev Hev Hfmt').
    cbn zeta. destruct (mean_ap _ _) as [m|e] eqn:Hm; [|done].
    intros Hr. exists ev, m. split; [done|]. split; [done|]. split; [done|].
    destruct (tensorboard self) as [log_dir|]; [|done].
    by destruct (tensorboard_write _) as [[]|e].
  - intros (ev & m & Hev & Hfmt & Hm & Hw).
    rewrite (Effects.evaluate_and_log_run evaluate label_to_name
               tensorboard_write self epoch l1 _ ev Hev Hfmt).
    cbn zeta. rewrite Hm.
    destruct (tensorboard self) as [log_dir|]; [by rewrite Hw|done].
Qed.


(** X16: with [verbose == 1], when the annotation count of a class cannot
    be formatted as a float on line 81 (it is beyond the largest
    double), [on_epoch_end] raises [OverflowError] at that class, before
    the aggregation: the lines of the classes before it are printed,
    [self.recall] and [self.precision] hold the new evaluation,
    [self.mean_ap] keeps its value and every dictionary of the caller is
    as before. *)
Theorem on_epoch_end_count_format_raises
    (self : Evaluate) (epoch : Z) (logs : option loc) (s : state)
    (ev : evaluation) (pre : list class_result) (r : class_result)
    (post : list class_result) :
  evaluate (iou_threshold self) (score_threshold self)
    (max_detections self) (save_path self) = Ok ev ->
  verbose self = 1%Z ->
  average_precisions ev = pre ++ r :: post ->
  Forall count_formats pre ->
  ~ count_formats r ->
  (run self epoch logs s).1 = Raise OverflowError
  /\ self_recall (run self epoch logs s).2 = Some (recall ev)
  /\ self_precision (run self epoch logs s).2 = Some (precision ev)
  /\ self_mean_ap (run self epoch logs s).2 = self_mean_ap s
  /\ stdout (run self epoch logs s).2 = stdout s ++ class_lines label_to_name pre
  /\ (forall l d, heap s !! l = Some d ->
                  heap (run self epoch logs s).2 !! l = Some d).
Proof.
  intros Hev Hv Hsplit Hpre Hr. unfold on_epoch_end, mbind, M_bind.
  destruct (Outcome.logs_or_new_state logs s) as (l1 & h1 & -> & Hframe & _).
  assert (Hr' : format_f (int_of_count (num_annotations_of r))
                = Raise OverflowError).
  { by destruct (Effects.format_f_cases (int_of_count (num_annotations_of r))). }
  rewrite (Effects.evaluate_and_log_format_raises evaluate label_to_name
             tensorboard_write self epoch l1 _ ev pre r post
             Hev Hv Hsplit Hpre Hr').
  cbn. by repeat split.
Qed.

End Outcomes.

Lemma on_epoch_end_evaluate_raises_witness :
  (on_epoch_end evaluate_raises_example label_to_name_example
     tensorboard_write_example default_callback 3 None state_with_loss_logs).1
    = Raise ExternalError
  /\ stdout (on_epoch_end evaluate_raises_example label_to_name_example
               tensorboard_write_example default_callback 3 None
               state_with_loss_logs).2 = []
  /\ self_recall (on_epoch_end evaluate_raises_example label_to_name_example
                    tensorboard_write_example default_callback 3 None
                    state_with_loss_logs).2 = None
  /\ self_precision (on_epoch_end evaluate_raises_example label_to_name_example
                       tensorboard_write_example default_callback 3 None
                       state_with_loss_logs).2 = None
  /\ self_mean_ap (on_epoch_end evaluate_raises_example label_to_name_example
                     tensorboard_write_example default_callback 3 None
                     state_with_loss_logs).2 = None
  /\ (forall l d, heap state_with_loss_logs !! l = Some d ->
        heap (on_epoch_end evaluate_raises_example label_to_name_example
                tensorboard_write_example default_callback 3 None
                state_with_loss_logs).2 !! l = Some d).
Proof.
  apply (on_epoch_end_evaluate_raises evaluate_raises_example
           label_to_name_example tensorboard_write_example default_callback 3
           None state_with_loss_logs ExternalError).
  reflexivity.
Defined.

Lemma on_epoch_end_aggregation_raises_state_witness :
  (on_epoch_end evaluate_no_annotations label_to_name_example
     tensorboard_write_example default_callback 3 None state_with_loss_logs).1
    = Raise ZeroDivisionError
  /\ self_recall (on_epoch_end evaluate_no_annotations label_to_name_example
                    tensorboard_write_example default_callback 3 None
                    state_with_loss_logs).2 = Some []
  /\ self_precision (on_epoch_end evaluate_no_annotations label_to_name_example
                       tensorboard_write_example default_callback 3 None
                       state_with_loss_logs).2 = Some []
  /\ self_mean_ap (on_epoch_end evaluate_no_annotations label_to_name_example
                     tensorboard_write_example default_callback 3 None
                     state_with_loss_logs).2 = None
  /\ stdout (on_epoch_end evaluate_no_annotations label_to_name_example
               tensorboard_write_example default_callback 3 None
               state_with_loss_logs).2
     = [ClassLine 0 "A" 0.4; ClassLine 0 "B" 0.7].
Proof.
  apply (on_epoch_end_aggregation_raises_state evaluate_no_annotations
           label_to_name_example tensorboard_write_example default_callback 3
           None state_with_loss_logs evaluation_no_annotations
           ZeroDivisionError).
  - reflexivity.
  - intros _. repeat constructor.
  - by vm_compute.
Defined.

Lemma on_epoch_end_tensorboard_raises_witness :
  (on_epoch_end evaluate_example label_to_name_example
     tensorboard_write_raises_example tensorboard_callback 3 (Some 0%nat)
     state_with_loss_logs).1 = Raise ExternalError
  /\ self_mean_ap (on_epoch_end evaluate_example label_to_name_example
                     tensorboard_write_raises_example tensorboard_callback 3
                     (Some 0%nat) state_with_loss_logs).2 = Some (Float 0.4)
  /\ (forall l d, heap state_with_loss_logs !! l = Some d ->
        heap (on_epoch_end evaluate_example label_to_name_example
                tensorboard_write_raises_example tensorboard_callback 3
                (Some 0%nat) state_with_loss_logs).2 !! l = Some d)
  /\ stdout (on_epoch_end evaluate_example label_to_name_example
               tensorboard_write_raises_example tensorboard_callback 3
               (Some 0%nat) state_with_loss_logs).2
     = [ClassLine 5 "A" 0.5; ClassLine 5 "B" 0.3].
Proof.
  apply (on_epoch_end_tensorboard_raises evaluate_example label_to_name_example
           tensorboard_write_raises_example tensorboard_callback 3 (Some 0%nat)
           state_with_loss_logs evaluation_A05_B03 (Float 0.4) "logs"
           ExternalError).
  - reflexivity.
  - intros _. repeat constructor.
  - by vm_compute.
  - reflexivity.
  - reflexivity.
Defined.



Lemma on_epoch_end_count_format_raises_witness :
  (on_epoch_end evaluate_huge_count label_to_name_example
     tensorboard_write_example default_callback 3 None state_with_loss_logs).1
    = Raise OverflowError
  /\ self_recall (on_epoch_end evaluate_huge_count label_to_name_example
                    tensorboard_write_example default_callback 3 None
                    state_with_loss_logs).2 = Some [0.5; 1]%float
  /\ self_precision (on_epoch_end evaluate_huge_count label_to_name_example
                       tensorboard_write_example default_callback 3 None
                       state_with_loss_logs).2 = Some [1; 0.5]%float
  /\ self_mean_ap (on_epoch_end evaluate_huge_count label_to_name_example
                     tensorboard_write_example default_callback 3 None
                     state_with_loss_logs).2 = None
  /\ stdout (on_epoch_end evaluate_huge_count label_to_name_example
               tensorboard_write_example default_callback 3 None
               state_with_loss_logs).2 = [ClassLine 5 "A" 0.5]
  /\ (forall l d, heap state_with_loss_logs !! l = Some d ->
        heap (on_epoch_end evaluate_huge_count label_to_name_example
                tensorboard_write_example default_callback 3 None
                state_with_loss_logs).2 !! l = Some d).
Proof.
  apply (on_epoch_end_count_format_raises evaluate_huge_count
           label_to_name_example tensorboard_write_example default_callback 3
           None state_with_loss_logs evaluation_huge_count
           [(0%Z, (0.5%float, 5%N))] (1%Z, (0.3%float, (2 ^ 1024)%N)) []).
  - reflexivity.
  - reflexivity.
  - reflexivity.
  - repeat constructor.
  - intros H. vm_compute in H. discriminate H.
Defined.

(** X7: with [tensorboard=None] nothing is written to TensorBoard: the
    outcome and the final state do not depend on the writer. *)
Theorem on_epoch_end_without_tensorboard
    (evaluate : float -> float -> Z -> option string -> result evaluation)
    (label_to_name : Z -> string)
    (write1 write2 : list tb_request -> result unit)
    (self : Evaluate) (epoch : Z) (logs : option loc) (s : state) :
  tensorboard self = None ->
  on_epoch_end evaluate label_to_name write1 self epoch logs s
  = on_epoch_end evaluate label_to_name write2 self epoch logs s.
Proof.
  intros Htb. unfold on_epoch_end, mbind, M_bind.
  destruct (logs_or_new logs s) as [[l1|e] s1]; [|done].
  enough (evaluate_and_log evaluate label_to_name write1 self epoch l1 s1
          = evaluate_and_log evaluate label_to_name write2 self epoch l1 s1)
    as -> by done.
  destruct (evaluate (iou_threshold self) (score_threshold self)
              (max_detections self) (save_path self)) as [ev|e] eqn:Hev.
  2: { by rewrite !(Effects.evaluate_and_log_evaluate_raises evaluate
                      label_to_name _ self epoch l1 s1 e Hev). }
  assert (Hrun : (verbose self = 1%Z ->
                  Forall count_formats (average_precisions ev)) ->
                 evaluate_and_log evaluate label_to_name write1 self epoch l1 s1
                 = evaluate_and_log evaluate label_to_name write2 self epoch l1 s1).
  { intros Hfmt.
    rewrite !(Effects.evaluate_and_log_run evaluate label_to_name _ self
                epoch l1 s1 ev Hev Hfmt).
    by rewrite Htb. }
  destruct (Effects.formats_or_fails (average_precisions ev))
    as [Hall|(pre & r & post & Hsplit & Hpre & Hr)]; [by apply Hrun|].
  destruct (Z.eq_dec (verbose self) 1) as [Hv|Hv]; [|by apply Hrun].
  by rewrite !(Effects.evaluate_and_log_format_raises evaluate label_to_name
                 _ self epoch l1 s1 ev pre r post Hev Hv Hsplit Hpre Hr).
Qed.

Lemma on_epoch_end_without_tensorboard_witness :
  on_epoch_end evaluate_example label_to_name_example tensorboard_write_example
    default_callback 3 None state_with_loss_logs
  = on_epoch_end evaluate_example label_to_name_example
      tensorboard_write_raises_example default_callback 3 None
      state_with_loss_logs.
Proof.
  apply (on_epoch_end_without_tensorboard evaluate_example label_to_name_example
           tensorboard_write_example tensorboard_write_raises_example
           default_callback 3 None state_with_loss_logs).
  reflexivity.
Defined.

(** X8: with [verbose != 1] nothing is printed, whatever the outcome,
    and [label_to_name] is never consulted: the outcome and the final
    state do not depend on it. *)
Theorem on_epoch_end_quiet
    (evaluate : float -> float -> Z -> option string -> result evaluation)
    (names1 names2 : Z -> string)
    (tensorboard_write : list tb_request -> result unit)
    (self : Evaluate) (epoch : Z) (logs : option loc) (s : state) :
  verbose self <> 1%Z ->
  stdout (on_epoch_end evaluate names1 tensorboard_write self epoch logs s).2
    = stdout s
  /\ on_epoch_end evaluate names1 tensorboard_write self epoch logs s
     = on_epoch_end evaluate names2 tensorboard_write self epoch logs s.
Proof.
  intros Hv. unfold on_epoch_end, mbind, M_bind.
  destruct (Outcome.logs_or_new_state logs s) as (l1 & h1 & -> & _ & _).
  destruct (evaluate (iou_threshold self) (score_threshold self)
              (max_detections self) (save_path self)) as [ev|e] eqn:Hev.
  2: { by rewrite !(Effects.evaluate_and_log_evaluate_raises evaluate _
                      tensorboard_write self epoch l1 _ e Hev). }
  rewrite !(Effects.evaluate_and_log_run evaluate _ tensorboard_write self
              epoch l1 _ ev Hev (fun H => False_ind _ (Hv H))).
  apply Z.eqb_neq in Hv. unfold tensorboard_requests. rewrite Hv.
  split; [|done]. cbn zeta.
  destruct (mean_ap _ _) as [m|e]; [|cbn; by rewrite app_nil_r].
  destruct (match tensorboard self with Some _ => _ | None => _ end) as [[]|e];
    cbn; by rewrite ?app_nil_r.
Qed.

Lemma on_epoch_end_quiet_witness :
  stdout (on_epoch_end evaluate_example label_to_name_example
            tensorboard_write_example quiet_callback 3 None
            state_with_loss_logs).2 = []
  /\ on_epoch_end evaluate_example label_to_name_example
       tensorboard_write_example quiet_callback 3 None state_with_loss_logs
     = on_epoch_end evaluate_example (fun _ => "?")
         tensorboard_write_example quiet_callback 3 None state_with_loss_logs.
Proof.
  apply (on_epoch_end_quiet evaluate_example label_to_name_example
           (fun _ => "?") tensorboard_write_example quiet_callback 3 None
           state_with_loss_logs).
  discriminate.
Defined.



(** X10: a callback built by [__init__] with every default calls
    [evaluate] with [iou_threshold=0.5], [score_threshold=0.05],
    [max_detections=100], [save_path=None], aggregates unweighted, prints
    the per-class lines (when every annotation count can be formatted as
    a float) and the mAP line, and returns whatever the TensorBoard
    writer would do. *)
Theorem default_callback_unweighted_no_tensorboard
    (evaluate : float -> float -> Z -> option string -> result evaluation)
    (label_to_name : Z -> string)
    (tensorboard_write : list tb_request -> result unit)
    (epoch : Z) (logs : option loc) (s : state) (ev : evaluation) (m : num) :
  evaluate 0.5%float 0.05%float 100%Z None = Ok ev ->
  Forall count_formats (average_precisions ev) ->
  mean_ap false (average_precisions ev) = Ok m ->
  (on_epoch_end evaluate label_to_name tensorboard_write
     (__init__ None None None None None None None) epoch logs s).1 = Ok tt
  /\ self_mean_ap
       (on_epoch_end evaluate label_to_name tensorboard_write
          (__init__ None None None None None None None) epoch logs s).2 = Some m
  /\ stdout
       (on_epoch_end evaluate label_to_name tensorboard_write
          (__init__ None None None None None None None) epoch logs s).2
     = stdout s ++ class_lines label_to_name (average_precisions ev) ++ [MapLine m].
Proof.
  intros Hev Hfmt Hm. unfold on_epoch_end, mbind, M_bind.
  destruct (Outcome.logs_or_new_state logs s) as (l1 & h1 & -> & _ & _).
  rewrite (Effects.evaluate_and_log_run evaluate label_to_name
             tensorboard_write (__init__ None None None None None None None)
             epoch l1 _ ev Hev (fun _ => Hfmt)).
  cbn. rewrite Hm. by cbn.
Qed.

Lemma default_callback_unweighted_no_tensorboard_witness :
  (on_epoch_end evaluate_example label_to_name_example
     tensorboard_write_raises_example
     (__init__ None None None None None None None) 3 None
     state_with_loss_logs).1 = Ok tt
  /\ self_mean_ap
       (on_epoch_end evaluate_example label_to_name_example
          tensorboard_write_raises_example
          (__init__ None None None None None None None) 3 None
          state_with_loss_logs).2 = Some (Float 0.4)
  /\ stdout
       (on_epoch_end evaluate_example label_to_name_example
          tensorboard_write_raises_example
          (__init__ None None None None None None None) 3 None
          state_with_loss_logs).2
     = [ClassLine 5 "A" 0.5; ClassLine 5 "B" 0.3; MapLine (Float 0.4)].
Proof.
  apply (default_callback_unweighted_no_tensorboard evaluate_example
           label_to_name_example tensorboard_write_raises_example 3 None
           state_with_loss_logs evaluation_A05_B03 (Float 0.4)).
  - reflexivity.
  - repeat constructor.
  - by vm_compute.
Defined.

(** ** The aggregation on classes without annotations and on NaN *)

(** X11: the weighted mAP is blind to classes without annotations: when
    their average precisions are finite, it equals the weighted mAP of
    the annotated classes alone (same value or same exception). *)
Theorem weighted_mean_ap_ignores_unannotated (aps : list class_result) :
  Forall (fun r => annotated r = false ->
                   is_nan (average_precision_of r) = false
                   /\ is_infinity (average_precision_of r) = false) aps ->
  mean_ap true aps = mean_ap true (filter (fun r => annotated r = true) aps).
Proof.
  intros Hfin. rewrite !Aggregation.mean_ap_weighted. unfold weighted_mean.
  rewrite Special.total_annotations_filter.
  destruct (Special.products_filter aps Hfin)
    as [[-> ->]|(ps & qs & -> & -> & Hfold & Hempty & Hnil)]; [done|].
  cbn [mbind result_bind bind]. rewrite !PyFacts.sum_floats.
  destruct qs as [|q qs].
  - rewrite (Hempty eq_refl). by destruct ps.
  - destruct ps as [|p ps]; [by specialize (Hnil eq_refl)|].
    by rewrite (Hfold 0%float Aggregation.zero_not_neg_zero).
Qed.

Lemma weighted_mean_ap_ignores_unannotated_witness :
  mean_ap true results_A08_B04
  = mean_ap true (filter (fun r => annotated r = true) results_A08_B04).
Proof.
  apply (weighted_mean_ap_ignores_unannotated results_A08_B04).
  repeat constructor; intros H; solve [discriminate H | reflexivity].
Defined.

(** X12: one NaN average precision, in an annotated class or not, makes
    the mAP NaN: the unweighted one when some class is annotated and
    there are fewer than [2^53] classes, the weighted one when the total
    count is positive and below [2^53]. *)
Theorem mean_ap_nan_average_precision (aps : list class_result) :
  Exists (fun r => is_nan (average_precision_of r) = true) aps ->
  (Exists (fun r => annotated r = true) aps ->
   (Z.of_nat (length aps) < 2 ^ 53)%Z ->
   exists f, mean_ap false aps = Ok (Float f) /\ is_nan f = true)
  /\ ((0 < total_annotations aps < 2 ^ 53)%N ->
      exists f, mean_ap true aps = Ok (Float f) /\ is_nan f = true).
Proof.
  intros Hnan. split.
  - intros Hex Hlen. rewrite Aggregation.mean_ap_unweighted.
    unfold sum_over_all_by_annotated. rewrite PyFacts.sum_floats.
    pose proof (Aggregation.annotated_count_pos aps Hex) as Hc.
    pose proof (length_filter (fun r => annotated r = true) aps) as Hle.
    assert (Hs : is_nan (fold_left PrimFloat.add (average_precision_of <$> aps) 0%float) = true).
    { apply Special.fold_add_nan. apply Exists_fmap. exact Hnan. }
    destruct aps as [|r aps]; [by apply Exists_nil in Hex|].
    rewrite fmap_cons in *. cbn [mbind result_bind bind].
    apply Special.truediv_nan; [done|done|lia].
  - intros [Hpos Hsmall]. rewrite Aggregation.mean_ap_weighted. unfold weighted_mean.
    assert (Hz : (Z.of_N (total_annotations aps) < 2 ^ 53)%Z).
    { change (2 ^ 53)%Z with (Z.of_N (2 ^ 53)). lia. }
    assert (Hsm : Forall (fun r => (Z.of_N (num_annotations_of r) < 2 ^ 53)%Z) aps).
    { eapply Forall_impl; [apply Aggregation.num_annotations_le_total|].
      cbn. intros r Hr. lia. }
    destruct (Special.products_nan aps Hsm Hnan) as (fs & -> & Hfs).
cbn [mbind result_bind bind].
    rewrite PyFacts.sum_floats.
    destruct fs as [|x fs]; [by apply Exists_nil in Hfs|].
    cbn [mbind result_bind bind].
    apply Special.truediv_nan; [by apply Special.fold_add_nan|lia|lia].
Qed.

Lemma mean_ap_nan_average_precision_witness :
  (exists f, mean_ap false results_with_nan = Ok (Float f) /\ is_nan f = true)
  /\ (exists f, mean_ap true results_with_nan = Ok (Float f) /\ is_nan f = true).
Proof.
  destruct (mean_ap_nan_average_precision results_with_nan) as [Hu Hw].
  - apply Exists_cons_tl, Exists_cons_hd. reflexivity.
  - split.
    + apply Hu; [apply Exists_cons_hd|]; reflexivity.
    + apply Hw. split; reflexivity.
Defined.

(** X17: what line 88 computes.  When at least one class has
    annotations, the unweighted mAP of the code is the sum of
    [average_precision] over all classes divided by the number of
    classes with [num_annotations > 0]; it is not a division by zero, and
    it is a [float] when there are fewer than [2^53] classes.  It is the
    arithmetic mean over exactly the annotated classes whenever every
    class without annotations has the average precision zero. *)
Theorem unweighted_mean_ap_sums_all_classes (aps : list class_result) :
  Exists (fun r => annotated r = true) aps ->
  mean_ap false aps = sum_over_all_by_annotated aps
  /\ mean_ap false aps <> Raise ZeroDivisionError
  /\ ((Z.of_nat (length aps) < 2 ^ 53)%Z ->
      exists f, mean_ap false aps = Ok (Float f))
  /\ (Forall (fun r => annotated r = false ->
                       (average_precision_of r =? 0)%float = true) aps ->
      mean_ap false aps = mean_over_annotated aps).
Proof.
  intros Hex. split; [apply Aggregation.mean_ap_unweighted|].
  split; [|split].
  - rewrite Aggregation.mean_ap_unweighted. unfold sum_over_all_by_annotated.
    destruct (PyFacts.sum_floats_ok (average_precision_of <$> aps)) as [s ->].
    apply PyFacts.truediv_int_nonzero. by apply Aggregation.annotated_count_pos.
  - by apply Aggregation.unweighted_returns.
  - intros Hz. rewrite Aggregation.mean_ap_unweighted.
    apply Aggregation.mean_over_annotated_eq; [done|].
    intros r Hr. by apply (proj1 (Forall_forall _ _) Hz).
Qed.

Lemma unweighted_mean_ap_sums_all_classes_witness :
  Exists (fun r => annotated r = true) results_A08_B0
  /\ mean_ap false results_A08_B0 = sum_over_all_by_annotated results_A08_B0
  /\ (exists f, mean_ap false results_A08_B0 = Ok (Float f))
  /\ mean_ap false results_A08_B0 = mean_over_annotated results_A08_B0.
Proof.
  assert (Hex : Exists (fun r => annotated r = true) results_A08_B0)
    by (apply Exists_cons_hd; reflexivity).
  destruct (unweighted_mean_ap_sums_all_classes results_A08_B0 Hex)
    as (Hsum & _ & Hfloat & Hmean).
  split; [exact Hex|]. split; [exact Hsum|]. split.
  - apply Hfloat. reflexivity.
  - apply Hmean.
    repeat constructor; intros H; solve [discriminate H | reflexivity].
Defined.

(** ** [decreasing_max_precision] as a suffix maximum *)

(** X14: [decreasing_max_precision] is idempotent: the envelope of an
    envelope is that envelope. *)
Theorem decreasing_max_precision_idempotent (precision : list float) :
  decreasing_max_precision (decreasing_max_precision precision)
  = decreasing_max_precision precision.
Proof.
  unfold decreasing_max_precision.
  by rewrite reverse_involutive, Suffix.np_maximum_accumulate_idem.
Qed.

(** X13: [decreasing_max_precision[i]] is the maximum of
    [precision[i:]]: it is one of the values [precision[j]] with
    [j >= i], and on a sequence without NaN it is not below any of
    them. *)
Theorem decreasing_max_precision_is_suffix_maximum (precision : list float) :
  (forall i y,
     decreasing_max_precision precision !! i = Some y ->
     exists j, (i <= j)%nat /\ precision !! j = Some y)
  /\ (Forall (fun x => is_nan x = false) precision ->
      forall i j x y,
        (i <= j)%nat ->
        decreasing_max_precision precision !! i = Some y ->
        precision !! j = Some x ->
        (x <=? y)%float = true).
Proof.
  split.
  - intros i y Hy. unfold decreasing_max_precision in Hy.
    apply reverse_lookup_Some in Hy as [Hy Hi].
    rewrite Maximum.np_maximum_accumulate_length, length_reverse in Hy, Hi.
    destruct (Suffix.np_maximum_accumulate_attained _ _ _ Hy) as (k' & Hk' & Hx).
    apply reverse_lookup_Some in Hx as [Hx Hlt].
    exists (length precision - S k')%nat. split; [lia|done].
  - intros Hnum i j x y Hij Hy Hx. unfold decreasing_max_precision in Hy.
    apply reverse_lookup_Some in Hy as [Hy Hi].
    rewrite Maximum.np_maximum_accumulate_length, length_reverse in Hy, Hi.
    pose proof (lookup_lt_Some _ _ _ Hx) as Hj.
    apply (Suffix.np_maximum_accumulate_dominates (reverse precision))
      with (k := (length precision - S i)%nat) (k' := (length precision - S j)%nat);
      [by apply Forall_reverse|done|lia|].
    by apply Suffix.lookup_reverse_of.
Qed.

Lemma decreasing_max_precision_is_suffix_maximum_witness :
  (forall i y,
     decreasing_max_precision precision_example !! i = Some y ->
     exists j, (i <= j)%nat /\ precision_example !! j = Some y)
  /\ (forall i j x y,
        (i <= j)%nat ->
        decreasing_max_precision precision_example !! i = Some y ->
        precision_example !! j = Some x ->
        (x <=? y)%float = true).
Proof.
  destruct (decreasing_max_precision_is_suffix_maximum precision_example)
    as [Hatt Hdom].
  split; [exact Hatt|]. apply Hdom. repeat constructor.
Defined.

(** X15: a NaN at [precision[j]] makes [decreasing_max_precision[i]] a
    NaN for every [i <= j]. *)
Theorem decreasing_max_precision_nan_spreads_left (precision : list float)
    (j : nat) (x : float) :
  precision !! j = Some x -> is_nan x = true ->
  forall i y,
    (i <= j)%nat -> decreasing_max_precision precision !! i = Some y ->
    is_nan y = true.
Proof.
  intros Hx Hnan i y Hij Hy. unfold decreasing_max_precision in Hy.
  apply reverse_lookup_Some in Hy as [Hy Hi].
  rewrite Maximum.np_maximum_accumulate_length, length_reverse in Hy, Hi.
  pose proof (lookup_lt_Some _ _ _ Hx) as Hj.
  apply (Suffix.np_maximum_accumulate_nan (reverse precision)
           (length precision - S j)%nat x
           (Suffix.lookup_reverse_of _ _ _ _ Hx) Hnan
           (length precision - S i)%nat y); [lia|done].
Qed.

Lemma decreasing_max_precision_nan_spreads_left_witness :
  precision_with_nan !! 1%nat = Some nan
  /\ (forall i y,
        (i <= 1)%nat ->
        decreasing_max_precision precision_with_nan !! i = Some y ->
        is_nan y = true).
Proof.
  split; [reflexivity|].
  apply (decreasing_max_precision_nan_spreads_left precision_with_nan 1 nan);
    reflexivity.
Defined.
